(** * StockData: fetching, shaping and persisting stock data

    A shallow embedding of [src/data/make_dataset.py].  The class
    [StockData] talks to two outside parties: the market-data provider
    (through the [alpha_vantage] client objects) and a relational database
    (through [sqlalchemy] and [DataFrame.to_sql]).  Both are modelled as
    explicit environments; the part of [pandas] that the class calls is
    modelled in [Module Pandas]; the class itself is translated method by
    method in [Section StockData]. *)

From stdpp Require Import gmap strings list fin_maps.
From Stdlib Require Import ZArith.

Open Scope string_scope.
Open Scope list_scope.

(** ** Python values, exceptions and results *)

(** Scalars held in a table cell.  The program moves cells around and never
    inspects them, so numbers are carried as integers. *)
Inductive value :=
| VStr (s : string)
| VNum (n : Z)
| VNaN.

(** The exceptions that can leave the methods of the class. *)
Inductive exn :=
| ProviderError (msg : string)
| IndexError
| ValueError (msg : string)
| ArgumentError (msg : string)
| PersistenceError (table : string).

Inductive result (A : Type) :=
| Ok (a : A)
| Raise (e : exn).
Arguments Ok {A} a.
Arguments Raise {A} e.

Definition result_bind {A B} (r : result A) (k : A → result B) : result B :=
  match r with
  | Ok a => k a
  | Raise e => Raise e
  end.

#[global] Instance result_ret : MRet result := λ A a, Ok a.
#[global] Instance result_mbind : MBind result := λ A B k r, result_bind r k.

Definition is_ok {A} (r : result A) : bool :=
  match r with Ok _ => true | Raise _ => false end.

(** A Python [dict] with string keys, in insertion order. *)
Definition pydict := list (string * value).

Definition dict_keys (d : pydict) : list string := d.*1.

Fixpoint dict_get (d : pydict) (k : string) : option value :=
  match d with
  | [] => None
  | (k', v) :: d' => if bool_decide (k' = k) then Some v else dict_get d' k
  end.

(** A dict display [{k0: v0, k1: v1, ...}]: the items are stored from left
    to right, a later item overwriting an earlier one with the same key. *)
Definition dict_literal (items : list (string * string)) : gmap string string :=
  foldl (λ m kv, <[kv.1 := kv.2]> m) ∅ items.

(** ** The part of pandas used by the class *)

Module Pandas.

(** A frame is kept column by column; the row labels live in [index],
    whose optional name is [index_name]. *)
Record DataFrame := mkDataFrame {
  index_name : option string;
  index : list value;
  cols : list (string * list value)
}.

Definition columns (df : DataFrame) : list string := (cols df).*1.

Definition nrows (df : DataFrame) : nat := length (index df).

(** [RangeIndex(n)] *)
Definition RangeIndex (n : nat) : list value :=
  VNum <$> seqZ 0 (Z.of_nat n).

(** [pd.DataFrame(data=df)] on a frame gives a frame with the same
    content. *)
Definition DataFrame_of_frame (data : DataFrame) : DataFrame := data.

(** [df.columns[i]] *)
Definition columns_getitem (df : DataFrame) (i : nat) : result string :=
  match columns df !! i with
  | Some label => Ok label
  | None => Raise IndexError
  end.

(** [df.rename(columns=mapper)]: labels absent from the mapper stay. *)
Definition rename (mapper : gmap string string) (df : DataFrame) : DataFrame :=
  mkDataFrame (index_name df) (index df)
              (prod_map (λ l, default l (mapper !! l)) id <$> cols df).

(** The label under which [reset_index] inserts the old index. *)
Definition reset_index_label (df : DataFrame) : string :=
  match index_name df with
  | Some n => n
  | None => if bool_decide ("index" ∈ columns df) then "level_0" else "index"
  end.

(** [df.reset_index()]: the old index becomes column 0, a fresh
    [RangeIndex] takes its place; inserting a label that is already a
    column raises [ValueError]. *)
Definition reset_index (df : DataFrame) : result DataFrame :=
  let name := reset_index_label df in
  if bool_decide (name ∈ columns df)
  then Raise (ValueError ("cannot insert " +:+ name +:+ ", already exists"))
  else Ok (mkDataFrame None (RangeIndex (nrows df))
                       ((name, index df) :: cols df)).

(** [pd.DataFrame(d, index=idx)] for a dict [d] of scalars: one column
    per key, every scalar repeated along the index. *)
Definition DataFrame_of_dict (d : pydict) (idx : list value) : DataFrame :=
  mkDataFrame None idx
              (prod_map id (replicate (length idx)) <$> d).

(** Labels of a list of records, each kept at its first appearance. *)
Fixpoint fast_unique (labels : list string) : list string :=
  match labels with
  | [] => []
  | l :: labels' => l :: filter (λ l', l' ≠ l) (fast_unique labels')
  end.

Definition union_keys (records : list pydict) : list string :=
  fast_unique (records ≫= dict_keys).

(** [pd.DataFrame.from_records(records)] for a list of dicts: one row
    per record, one column per key, [NaN] where a record lacks a key. *)
Definition from_records (records : list pydict) : DataFrame :=
  mkDataFrame None (RangeIndex (length records))
              ((λ k, (k, (λ r, default VNaN (dict_get r k)) <$> records))
                 <$> union_keys records).

End Pandas.
Import Pandas.

(** ** The outside world *)

(** The module [keys], imported at the top of the source file. *)
Record keys_module := {
  api_key : string;
  cloud_connection_string : string
}.

(** The two client objects of the [alpha_vantage] package. *)
Record TimeSeries := {
  ts_key : string;
  ts_output_format : string
}.

Record FundamentalData := {
  fd_key : string
}.

Inductive endpoint :=
| DailyAdjusted
| CompanyOverview
| BalanceSheetQuarterly
| IncomeStatementQuarterly
| CashFlowQuarterly.

(** The remote service.  Every call returns a pair (data, meta data) or
    raises; the answer depends on the key and on the arguments only. *)
Record Provider := {
  get_daily_adjusted :
    TimeSeries → string → string → result (DataFrame * value);
  get_company_overview :
    FundamentalData → string → result (pydict * value);
  get_balance_sheet_quarterly :
    FundamentalData → string → result (list pydict * value);
  get_income_statement_quarterly :
    FundamentalData → string → result (list pydict * value);
  get_cash_flow_quarterly :
    FundamentalData → string → result (list pydict * value)
}.

(** A stored table: the columns of the frame that was written. *)
Definition Table := list (string * list value).

Record Engine := {
  url : string
}.

Inductive IfExists := IfExistsFail | IfExistsReplace | IfExistsAppend.

(** The database servers.  [valid_url] tells the connection strings that
    [create_engine] accepts.  [write_fault url table content] says whether
    the write of [content] to [table] goes wrong and, if so, what it does to
    the state of that one table. *)
Record Backend := {
  valid_url : string → bool;
  write_fault :
    string → string → Table → option (option Table → option Table)
}.

Inductive event :=
| ECreateEngine (conn_str : string)
| EFetch (e : endpoint) (api_key symbol : string)
| EWrite (table : string).

(** The stored tables, each found under the URL of its database and its
    name, and the log of what the program did to the outside. *)
Record World := mkWorld {
  db : gmap (string * string) Table;
  trace : list event
}.

(** State and exceptions: a computation maps the world to the new world
    and either a value or the exception that ended it. *)
Definition M (A : Type) : Type := World → World * result A.

Definition M_ret {A} (a : A) : M A := λ w, (w, Ok a).

Definition M_bind {A B} (m : M A) (k : A → M B) : M B :=
  λ w, match m w with
       | (w', Ok a) => k a w'
       | (w', Raise e) => (w', Raise e)
       end.

#[global] Instance M_mret : MRet M := λ A a, M_ret a.
#[global] Instance M_mbind : MBind M := λ A B k m, M_bind m k.

Definition lift {A} (r : result A) : M A := λ w, (w, r).

Definition emit (e : event) : M unit :=
  λ w, (mkWorld (db w) (trace w ++ [e])%list, Ok tt).

Definition raise {A} (e : exn) : M A := λ w, (w, Raise e).

Definition update_db
    (f : gmap (string * string) Table → gmap (string * string) Table) : M unit :=
  λ w, (mkWorld (f (db w)) (trace w), Ok tt).

Definition read_table (key : string * string) : M (option Table) :=
  λ w, (w, Ok (db w !! key)).

(** ** The class *)

Record StockData := {
  ticker : string;
  ts : TimeSeries;
  fd : FundamentalData
}.

(** The fixed column names of lines 69-76. *)
Definition historical_names : list string :=
  ["open"; "high"; "low"; "close"; "adjusted_close"; "volume";
   "dividend_amount"; "split_coefficient"].

Section StockData.

(** The imported module [keys], the provider behind the client objects and
    the database servers behind [sqlalchemy]. *)
Variable keys : keys_module.
Variable av : Provider.
Variable sql : Backend.

(** [sqlalchemy.create_engine(conn_str)] *)
Definition create_engine (conn_str : string) : M Engine :=
  _ ← emit (ECreateEngine conn_str);
  if valid_url sql conn_str then mret {| url := conn_str |}
  else raise (ArgumentError "Could not parse SQLAlchemy URL").

(** What [to_sql] sends: the columns, preceded by the index column when
    [index] is true. *)
Definition sql_content (df : DataFrame) (index_too : bool) : Table :=
  if index_too then (reset_index_label df, index df) :: cols df else cols df.

Definition append_rows (old new : Table) : Table :=
  zip_with (λ o n, (o.1, (o.2 ++ n.2)%list)) old new.

(** [df.to_sql(name, con, if_exists=..., index=...)] *)
Definition to_sql (df : DataFrame) (name : string) (con : Engine)
    (if_exists : IfExists) (index_too : bool) : M unit :=
  let content := sql_content df index_too in
  let key := (url con, name) in
  _ ← emit (EWrite name);
  match write_fault sql (url con) name content with
  | Some damage =>
      _ ← update_db (partial_alter damage key);
      raise (PersistenceError name)
  | None =>
      existing ← read_table key;
      match existing, if_exists with
      | Some _, IfExistsFail =>
          raise (ValueError ("Table '" +:+ name +:+ "' already exists."))
      | Some old, IfExistsAppend =>
          if bool_decide (old.*1 = content.*1)
          then update_db (<[key := append_rows old content]>)
          else raise (PersistenceError name)
      | _, _ => update_db (<[key := content]>)
      end
  end.

(** Lines 44-56. *)
Definition __init__ (ticker : string) : StockData :=
  {| ticker := ticker;
     ts := {| ts_key := api_key keys; ts_output_format := "pandas" |};
     fd := {| fd_key := api_key keys |} |}.

(** Lines 68-77: the shaping of the provider's frame. *)
Definition shape_historical (data : DataFrame) : result DataFrame :=
  let historical_data := DataFrame_of_frame data in
  c0 ← columns_getitem historical_data 0;
  c1 ← columns_getitem historical_data 1;
  c2 ← columns_getitem historical_data 2;
  c3 ← columns_getitem historical_data 3;
  c4 ← columns_getitem historical_data 4;
  c5 ← columns_getitem historical_data 5;
  c6 ← columns_getitem historical_data 6;
  c7 ← columns_getitem historical_data 7;
  let historical_data :=
    rename (dict_literal [(c0, "open"); (c1, "high"); (c2, "low");
                          (c3, "close"); (c4, "adjusted_close");
                          (c5, "volume"); (c6, "dividend_amount");
                          (c7, "split_coefficient")])
           historical_data in
  reset_index historical_data.

(** Lines 58-78. *)
Definition get_historical_data (self : StockData) : M DataFrame :=
  _ ← emit (EFetch DailyAdjusted (ts_key (ts self)) (ticker self));
  '(data, _) ← lift (get_daily_adjusted av (ts self) (ticker self) "full");
  historical_data ← lift (shape_historical data);
  mret historical_data.

(** Lines 80-108. *)
Definition get_fundamental_data (self : StockData)
    : M (DataFrame * DataFrame * DataFrame * DataFrame) :=
  _ ← emit (EFetch CompanyOverview (fd_key (fd self)) (ticker self));
  overview ← lift (get_company_overview av (fd self) (ticker self));
  let overview_df := DataFrame_of_dict overview.1 [VNum 0] in
  _ ← emit (EFetch BalanceSheetQuarterly (fd_key (fd self)) (ticker self));
  q_bs ← lift (get_balance_sheet_quarterly av (fd self) (ticker self));
  let bs_df := from_records q_bs.1 in
  _ ← emit (EFetch IncomeStatementQuarterly (fd_key (fd self)) (ticker self));
  q_is ← lift (get_income_statement_quarterly av (fd self) (ticker self));
  let is_df := from_records q_is.1 in
  _ ← emit (EFetch CashFlowQuarterly (fd_key (fd self)) (ticker self));
  q_cf ← lift (get_cash_flow_quarterly av (fd self) (ticker self));
  let cf_df := from_records q_cf.1 in
  mret (overview_df, bs_df, is_df, cf_df).

(** Lines 110-129. *)
Definition save_to_database (self : StockData) (conn_str : string) : M unit :=
  engine ← create_engine conn_str;
  historical_data ← get_historical_data self;
  '(overview_df, bs_df, is_df, cf_df) ← get_fundamental_data self;
  _ ← to_sql historical_data "historical_data" engine IfExistsReplace false;
  _ ← to_sql overview_df "microsoft" engine IfExistsReplace false;
  _ ← to_sql bs_df "balance_sheet_data" engine IfExistsReplace false;
  _ ← to_sql is_df "income_statement_data" engine IfExistsReplace false;
  to_sql cf_df "cash_flow_data" engine IfExistsReplace false.

End StockData.

(** ** Reading runs *)

(** The names of lines 125-129, in the order of the five statements. *)
Definition destination_tables : list string :=
  ["historical_data"; "microsoft"; "balance_sheet_data";
   "income_statement_data"; "cash_flow_data"].

(** The tables written and the endpoints called, as a log shows them. *)
Definition writes (tr : list event) : list string :=
  omap (λ e, match e with EWrite n => Some n | _ => None end) tr.

Definition fetches (tr : list event) : list endpoint :=
  omap (λ e, match e with EFetch p _ _ => Some p | _ => None end) tr.

(** The five fetch events of one run, in program order. *)
Definition fetch_events (self : StockData) : list event :=
  [EFetch DailyAdjusted (ts_key (ts self)) (ticker self);
   EFetch CompanyOverview (fd_key (fd self)) (ticker self);
   EFetch BalanceSheetQuarterly (fd_key (fd self)) (ticker self);
   EFetch IncomeStatementQuarterly (fd_key (fd self)) (ticker self);
   EFetch CashFlowQuarterly (fd_key (fd self)) (ticker self)].

(** A sequence of replacing writes, as in lines 125-129. *)
Fixpoint write_all (sql : Backend) (con : Engine)
    (jobs : list (string * DataFrame)) : M unit :=
  match jobs with
  | [] => mret tt
  | (name, df) :: jobs' =>
      _ ← to_sql sql df name con IfExistsReplace false;
      write_all sql con jobs'
  end.

(** The five writes of [save_to_database] for given frames. *)
Definition save_jobs (historical_data : DataFrame)
    (fundamentals : DataFrame * DataFrame * DataFrame * DataFrame)
    : list (string * DataFrame) :=
  let '(overview_df, bs_df, is_df, cf_df) := fundamentals in
  zip destination_tables [historical_data; overview_df; bs_df; is_df; cf_df].

(** The effect of successful replacing writes on the stored tables. *)
Definition replace_tables (u : string) (jobs : list (string * DataFrame))
    (tables : gmap (string * string) Table) : gmap (string * string) Table :=
  foldl (λ m job, <[(u, job.1) := cols job.2]> m) tables jobs.

(** A write that the server carries out. *)
Definition sound_write (sql : Backend) (con : Engine)
    (job : string * DataFrame) : Prop :=
  write_fault sql (url con) job.1 (cols job.2) = None.

(** The dict display of lines 69-76 for a frame with the given column
    labels, eight or more, and the labels after the renaming through it. *)
Definition positional_mapper (labels : list string) : gmap string string :=
  dict_literal (zip (take 8 labels) historical_names).

Definition renamed_labels (labels : list string) : list string :=
  (λ l, default l (positional_mapper labels !! l)) <$> labels.


(** What a method logs and what it returns, read off a run that starts in
    the world without tables and without history. *)
Definition empty_world : World := mkWorld ∅ [].

Definition events_of {A} (m : M A) : list event := trace (m empty_world).1.

Definition result_of {A} (m : M A) : result A := (m empty_world).2.

(** ** Sample data *)

Module Samples.

Definition daily_labels : list string :=
  ["1. open"; "2. high"; "3. low"; "4. close"; "5. adjusted close";
   "6. volume"; "7. dividend amount"; "8. split coefficient"].

Definition frame_with (labels : list string) : DataFrame :=
  mkDataFrame (Some "date") [VStr "2024-01-02"; VStr "2024-01-03"]
              ((λ l, (l, [VNum 370; VNum 372])) <$> labels).

Definition msft_daily : DataFrame := frame_with daily_labels.
Definition seven_columns : DataFrame := frame_with (take 7 daily_labels).
Definition nine_columns : DataFrame :=
  frame_with (daily_labels ++ ["9. extra"])%list.
Definition date_clash : DataFrame :=
  frame_with (daily_labels ++ ["date"])%list.
Definition twin_labels : DataFrame :=
  frame_with ("x" :: "x" :: drop 2 daily_labels).

Definition overview_of (symbol name : string) : pydict :=
  [("Symbol", VStr symbol); ("Name", VStr name); ("Sector", VStr "TECHNOLOGY")].

Definition quarter (ending : string) (assets : Z) : pydict :=
  [("fiscalDateEnding", VStr ending); ("reportedCurrency", VStr "USD");
   ("totalAssets", VNum assets)].

Definition four_quarters (base : Z) : list pydict :=
  [quarter "2023-12-31" (base + 3); quarter "2023-09-30" (base + 2);
   quarter "2023-06-30" (base + 1); quarter "2023-03-31" base].

Definition daily_of (symbol : string) : DataFrame :=
  if bool_decide (symbol = "MSFT") then msft_daily
  else mkDataFrame (Some "date") [VStr "2024-01-02"]
                   ((λ l, (l, [VNum 185])) <$> daily_labels).

(** A provider that knows every symbol. *)
Definition provider : Provider :=
  {| get_daily_adjusted := λ _ symbol _, Ok (daily_of symbol, VStr symbol);
     get_company_overview := λ _ symbol,
       Ok (overview_of symbol (symbol +:+ " Corporation"), VNaN);
     get_balance_sheet_quarterly := λ _ symbol,
       Ok (four_quarters (Z.of_nat (String.length symbol)), VStr symbol);
     get_income_statement_quarterly := λ _ symbol,
       Ok (four_quarters 10, VStr symbol);
     get_cash_flow_quarterly := λ _ symbol,
       Ok (four_quarters 20, VStr symbol) |}.

(** The same provider with the daily series replaced. *)
Definition provider_with_daily (data : DataFrame) : Provider :=
  {| get_daily_adjusted := λ _ symbol _, Ok (data, VStr symbol);
     get_company_overview := get_company_overview provider;
     get_balance_sheet_quarterly := get_balance_sheet_quarterly provider;
     get_income_statement_quarterly := get_income_statement_quarterly provider;
     get_cash_flow_quarterly := get_cash_flow_quarterly provider |}.

(** A provider that runs into its rate limit at the cash-flow call. *)
Definition limited_provider : Provider :=
  {| get_daily_adjusted := get_daily_adjusted provider;
     get_company_overview := get_company_overview provider;
     get_balance_sheet_quarterly := get_balance_sheet_quarterly provider;
     get_income_statement_quarterly := get_income_statement_quarterly provider;
     get_cash_flow_quarterly := λ _ _, Raise (ProviderError "rate limit") |}.

Definition sound_backend : Backend :=
  {| valid_url := λ _, true; write_fault := λ _ _ _, None |}.

(** A server that drops the balance-sheet table and then fails. *)
Definition broken_backend : Backend :=
  {| valid_url := λ _, true;
     write_fault := λ _ name _,
       if bool_decide (name = "balance_sheet_data") then Some (λ _, None)
       else None |}.

Definition keys_a : keys_module :=
  {| api_key := "KEY-A"; cloud_connection_string := "postgresql://cloud/db" |}.
Definition keys_b : keys_module :=
  {| api_key := "KEY-B"; cloud_connection_string := "postgresql://cloud/db" |}.

Definition conn : string := "postgresql://localhost/stocks".

Definition old_table : Table := [("stale", [VNum 1; VNum 2; VNum 3])].

Definition used_world : World :=
  mkWorld (<[(conn, "income_statement_data") := old_table]>
             (<[(conn, "historical_data") := old_table]> ∅)) [].

End Samples.

(** ** Further notions and sample data *)

(** A frame is rectangular when every column has one cell per row. *)
Definition rectangular (df : DataFrame) : Prop :=
  Forall (λ c, length c.2 = nrows df) (cols df).

(** [df[k]]: the cells of the first column labelled [k]. *)
Fixpoint column (cs : list (string * list value)) (k : string)
    : option (list value) :=
  match cs with
  | [] => None
  | (l, c) :: cs' => if bool_decide (l = k) then Some c else column cs' k
  end.

(** The cell of column [k] in row [i]. *)
Definition cell (df : DataFrame) (k : string) (i : nat) : option value :=
  column (cols df) k ≫= (λ c, c !! i).

(** The label under which the shaping inserts the index of a response. *)
Definition date_label (data : DataFrame) : string :=
  default "index" (index_name data).

Module EdgeCases.

Definition eight_cells : list (string * list value) :=
  (λ l, (l, [VNum 370; VNum 372])) <$> Samples.daily_labels.

Definition unnamed_index : DataFrame :=
  mkDataFrame None [VStr "2024-01-02"; VStr "2024-01-03"] eight_cells.

Definition open_index : DataFrame :=
  mkDataFrame (Some "open") [VStr "2024-01-02"; VStr "2024-01-03"] eight_cells.



Definition failing_balance_sheet : Provider :=
  {| get_daily_adjusted := get_daily_adjusted Samples.provider;
     get_company_overview := get_company_overview Samples.provider;
     get_balance_sheet_quarterly := λ _ _, Raise (ProviderError "rate limit");
     get_income_statement_quarterly :=
       get_income_statement_quarterly Samples.provider;
     get_cash_flow_quarterly := get_cash_flow_quarterly Samples.provider |}.

(** A server that accepts PostgreSQL URLs only and fails on every write,
    emptying the table it was asked to write. *)
Definition strict_backend : Backend :=
  {| valid_url := String.prefix "postgresql://";
     write_fault := λ _ _ _, Some (λ _, Some []) |}.

Definition other_url : string := "postgresql://elsewhere/archive".

(** Tables of the same names in another database and a table of another
    name in the database written to. *)
Definition crowded_world : World :=
  mkWorld (<[(other_url, "historical_data") := Samples.old_table]>
             (<[(Samples.conn, "watchlist") := Samples.old_table]> ∅)) [].

End EdgeCases.

(** ** Dict displays *)

Lemma dict_literal_snoc items k v :
  dict_literal (items ++ [(k, v)])%list = <[k := v]> (dict_literal items).
Proof. unfold dict_literal. by rewrite foldl_app. Qed.

Lemma dict_literal_absent items k :
  k ∉ items.*1 → dict_literal items !! k = None.
Proof.
  induction items as [|[k' v'] items IH] using rev_ind; intros Hk.
  - done.
  - rewrite dict_literal_snoc. rewrite fmap_app in Hk. simpl in Hk.
    apply not_elem_of_app in Hk as [Hk Hk'].
    rewrite lookup_insert_ne; [by apply IH|].
    intros ->. apply Hk'. by apply list_elem_of_singleton.
Qed.

Lemma dict_literal_present items k v :
  NoDup items.*1 → (k, v) ∈ items → dict_literal items !! k = Some v.
Proof.
  induction items as [|[k' v'] items IH] using rev_ind; intros Hnd Hin.
  - by apply elem_of_nil in Hin.
  - rewrite dict_literal_snoc. rewrite fmap_app in Hnd. simpl in Hnd.
    apply NoDup_app in Hnd as (Hnd & Hfresh & _).
    apply elem_of_app in Hin as [Hin | Hin].
    + assert (k ≠ k') as Hne.
      { intros ->. apply (Hfresh k'); [|set_solver].
        apply list_elem_of_fmap. by exists (k', v). }
      rewrite lookup_insert_ne by done. by apply IH.
    + apply list_elem_of_singleton in Hin. simplify_eq.
      by rewrite lookup_insert_eq.
Qed.

(** Renaming distinct labels through a dict display built from them gives
    the new names, position by position. *)
Lemma rename_labels_zip (ks vs : list string) :
  NoDup ks → length ks = length vs →
  (λ l, default l (dict_literal (zip ks vs) !! l)) <$> ks = vs.
Proof.
  intros Hnd Hlen. apply list_eq. intros i. rewrite list_lookup_fmap.
  destruct (ks !! i) as [k|] eqn:Hk; simpl.
  - destruct (lookup_lt_is_Some_2 vs i) as [v Hv].
    { rewrite <- Hlen. by eapply lookup_lt_Some. }
    rewrite Hv. f_equal.
    rewrite (dict_literal_present _ k v); [done| |].
    + rewrite fst_zip; [done|lia].
    + apply list_elem_of_lookup. exists i.
      rewrite lookup_zip_with, Hk. simpl. by rewrite Hv.
  - symmetry. apply lookup_ge_None. rewrite <- Hlen. by apply lookup_ge_None.
Qed.

Lemma rename_labels_other (ks vs rest : list string) :
  (∀ l, l ∈ rest → l ∉ ks) →
  (λ l, default l (dict_literal (zip ks vs) !! l)) <$> rest = rest.
Proof.
  intros Hfresh. rewrite <- (list_fmap_id rest) at 2.
  apply list_fmap_ext; intros i l Hl; simpl.
  apply list_elem_of_lookup_2 in Hl.
  rewrite dict_literal_absent; [done|].
  intros Hin. apply (Hfresh l Hl).
  apply list_elem_of_fmap in Hin as ([k v] & -> & Hin).
  apply elem_of_zip_l in Hin. done.
Qed.

(** ** The shaping of the historical frame *)

Lemma columns_rename mapper df :
  columns (rename mapper df) = (λ l, default l (mapper !! l)) <$> columns df.
Proof.
  unfold columns, rename; simpl. rewrite <- !list_fmap_compose.
  apply list_fmap_ext. by intros i [l c] _.
Qed.

(** With fewer than eight columns one of the eight positional reads is out
    of range. *)
Lemma shape_historical_short (data : DataFrame) :
  (length (columns data) < 8)%nat → shape_historical data = Raise IndexError.
Proof.
  destruct data as [name idx cs]. unfold columns; simpl.
  do 8 (destruct cs as [|[? ?] cs]; [reflexivity|]); simpl; lia.
Qed.

(** With eight columns or more the reads succeed and the frame is renamed
    through the dict display of the first eight labels. *)
Lemma shape_historical_long (data : DataFrame) :
  (8 ≤ length (columns data))%nat →
  shape_historical data =
  reset_index
    (rename (dict_literal (zip (take 8 (columns data)) historical_names)) data).
Proof.
  destruct data as [name idx cs]. unfold columns; simpl.
  do 8 (destruct cs as [|[? ?] cs]; [simpl; lia|]); reflexivity.
Qed.

(** ** Runs of the monad *)

Ltac unfold_M :=
  unfold mbind, M_mbind, M_bind, mret, M_mret, M_ret, lift, emit, raise,
    update_db, read_table; simpl.

(** A fetch method touches no table; what it logs and returns is the same
    from every world. *)
Lemma get_historical_data_run av self w :
  get_historical_data av self w =
  (mkWorld (db w) (trace w ++ events_of (get_historical_data av self)),
   result_of (get_historical_data av self)).
Proof.
  unfold events_of, result_of, get_historical_data. unfold_M.
  destruct (get_daily_adjusted av (ts self) (ticker self) "full")
    as [[data meta]|e]; [|done].
  by destruct (shape_historical data).
Qed.

Lemma get_fundamental_data_run av self w :
  get_fundamental_data av self w =
  (mkWorld (db w) (trace w ++ events_of (get_fundamental_data av self)),
   result_of (get_fundamental_data av self)).
Proof.
  unfold events_of, result_of, get_fundamental_data. unfold_M.
  destruct (get_company_overview av (fd self) (ticker self)); [|done].
  destruct (get_balance_sheet_quarterly av (fd self) (ticker self));
    [|by rewrite <- app_assoc].
  destruct (get_income_statement_quarterly av (fd self) (ticker self));
    [|by rewrite <- !app_assoc].
  destruct (get_cash_flow_quarterly av (fd self) (ticker self));
    by rewrite <- !app_assoc.
Qed.

(** ** Replacing writes *)

Section Writes.

Variable sql : Backend.
Variable con : Engine.

Lemma to_sql_replace_ok df name w :
  write_fault sql (url con) name (cols df) = None →
  to_sql sql df name con IfExistsReplace false w =
  (mkWorld (<[(url con, name) := cols df]> (db w)) (trace w ++ [EWrite name]),
   Ok tt).
Proof.
  intros Hok. unfold to_sql, sql_content. unfold_M. rewrite Hok. simpl.
  by destruct (db w !! (url con, name)).
Qed.

Lemma to_sql_replace_fault df name damage w :
  write_fault sql (url con) name (cols df) = Some damage →
  to_sql sql df name con IfExistsReplace false w =
  (mkWorld (partial_alter damage (url con, name) (db w))
           (trace w ++ [EWrite name]),
   Raise (PersistenceError name)).
Proof. intros Hbad. unfold to_sql, sql_content. unfold_M. by rewrite Hbad. Qed.

Lemma write_all_ok jobs w :
  Forall (sound_write sql con) jobs →
  write_all sql con jobs w =
  (mkWorld (replace_tables (url con) jobs (db w))
           (trace w ++ (EWrite <$> jobs.*1)),
   Ok tt).
Proof.
  intros Hjobs. revert w.
  induction Hjobs as [|[name df] jobs Hjob _ IH]; intros [tables tr].
  - simpl. unfold_M. by rewrite app_nil_r.
  - simpl. unfold mbind, M_mbind, M_bind.
    rewrite to_sql_replace_ok by done. rewrite IH. simpl.
    by rewrite <- app_assoc.
Qed.

Lemma write_all_fault pre name df post damage w :
  Forall (sound_write sql con) pre →
  write_fault sql (url con) name (cols df) = Some damage →
  write_all sql con (pre ++ (name, df) :: post) w =
  (mkWorld (partial_alter damage (url con, name)
                          (replace_tables (url con) pre (db w)))
           (trace w ++ (EWrite <$> pre.*1 ++ [name])),
   Raise (PersistenceError name)).
Proof.
  intros Hpre Hbad. revert w.
  induction Hpre as [|[name' df'] pre Hjob _ IH]; intros [tables tr].
  - simpl. unfold mbind, M_mbind, M_bind.
    by rewrite (to_sql_replace_fault _ _ damage).
  - simpl. unfold mbind, M_mbind, M_bind.
    rewrite to_sql_replace_ok by done. rewrite IH. simpl.
    by rewrite <- app_assoc.
Qed.

(** Either every write goes through or there is a first one that does
    not. *)
Lemma write_all_cases jobs :
  Forall (sound_write sql con) jobs ∨
  ∃ pre name df post damage,
    jobs = (pre ++ (name, df) :: post)%list ∧ Forall (sound_write sql con) pre ∧
    write_fault sql (url con) name (cols df) = Some damage.
Proof.
  induction jobs as [|[name df] jobs IH].
  - by left.
  - destruct (write_fault sql (url con) name (cols df)) as [damage|] eqn:Hw.
    + right. by exists [], name, df, jobs, damage.
    + destruct IH as [IH | (pre & n & d & post & damage & -> & Hpre & Hbad)].
      * left. by constructor.
      * right. exists ((name, df) :: pre), n, d, post, damage.
        split; [done|]. split; [by constructor|done].
Qed.

End Writes.

(** Stored tables after replacing writes: the last job for a table decides,
    tables without a job are as before. *)
Lemma replace_tables_snoc u jobs name df tables :
  replace_tables u (jobs ++ [(name, df)]) tables =
  <[(u, name) := cols df]> (replace_tables u jobs tables).
Proof. unfold replace_tables. by rewrite foldl_app. Qed.

Lemma replace_tables_other u jobs tables key :
  (∀ name, name ∈ jobs.*1 → key ≠ (u, name)) →
  replace_tables u jobs tables !! key = tables !! key.
Proof.
  induction jobs as [|[name df] jobs IH] using rev_ind; intros Hkey; [done|].
  rewrite replace_tables_snoc. rewrite fmap_app in Hkey.
  rewrite lookup_insert_ne.
  - apply IH. intros n Hn. apply Hkey. apply elem_of_app. by left.
  - intros Heq. apply (Hkey name); [|done].
    apply elem_of_app. right. by apply list_elem_of_singleton.
Qed.

Lemma replace_tables_written u jobs tables name df :
  NoDup jobs.*1 → (name, df) ∈ jobs →
  replace_tables u jobs tables !! (u, name) = Some (cols df).
Proof.
  induction jobs as [|[name' df'] jobs IH] using rev_ind; intros Hnd Hin.
  - by apply elem_of_nil in Hin.
  - rewrite replace_tables_snoc. rewrite fmap_app in Hnd. simpl in Hnd.
    apply NoDup_app in Hnd as (Hnd & Hfresh & _).
    apply elem_of_app in Hin as [Hin | Hin].
    + rewrite lookup_insert_ne; [by apply IH|].
      intros [= ->]. apply (Hfresh name); [|by apply list_elem_of_singleton].
      apply list_elem_of_fmap. by exists (name, df).
    + apply list_elem_of_singleton in Hin. simplify_eq.
      by rewrite lookup_insert_eq.
Qed.


(** A later sequence of writes to the same tables hides an earlier one. *)
Lemma replace_tables_over u jobs jobs' tables :
  NoDup jobs'.*1 → jobs.*1 = jobs'.*1 →
  replace_tables u jobs' (replace_tables u jobs tables) =
  replace_tables u jobs' tables.
Proof.
  intros Hnd Hnames. apply map_eq. intros [u' name].
  destruct (decide (u' = u ∧ name ∈ jobs'.*1)) as [[-> Hin]|Hout].
  - apply list_elem_of_fmap in Hin as ([n df] & -> & Hin). simpl.
    by rewrite !(replace_tables_written u jobs' _ n df).
  - assert (∀ n, n ∈ jobs'.*1 → (u', name) ≠ (u, n)) as Hkey.
    { intros n Hn [= -> ->]. by apply Hout. }
    rewrite (replace_tables_other u jobs') by done.
    rewrite (replace_tables_other u jobs') by done.
    apply replace_tables_other. by rewrite Hnames.
Qed.

(** ** The shape of a run of [save_to_database] *)

Lemma save_to_database_run av sql self conn_str w :
  save_to_database av sql self conn_str w =
  let w0 := mkWorld (db w) (trace w ++ [ECreateEngine conn_str]) in
  if valid_url sql conn_str then
    let w1 :=
      mkWorld (db w) (trace w0 ++ events_of (get_historical_data av self)) in
    match result_of (get_historical_data av self) with
    | Raise e => (w1, Raise e)
    | Ok historical_data =>
        let w2 :=
          mkWorld (db w)
                  (trace w1 ++ events_of (get_fundamental_data av self)) in
        match result_of (get_fundamental_data av self) with
        | Raise e => (w2, Raise e)
        | Ok fundamentals =>
            write_all sql {| url := conn_str |}
                      (save_jobs historical_data fundamentals) w2
        end
    end
  else (w0, Raise (ArgumentError "Could not parse SQLAlchemy URL")).
Proof.
  unfold save_to_database, create_engine.
  unfold mbind, M_mbind, M_bind, emit. simpl.
  destruct (valid_url sql conn_str); [|done].
  unfold mret, M_mret, M_ret. rewrite get_historical_data_run. simpl.
  destruct (result_of (get_historical_data av self)) as [h|e]; [|done].
  rewrite get_fundamental_data_run. simpl.
  destruct (result_of (get_fundamental_data av self))
    as [[[[ov bs] is_] cf]|e]; [|done].
  simpl. unfold mbind, M_mbind, M_bind.
  do 4 (match goal with
        | |- context [to_sql ?s ?d ?n ?c ?i ?b ?w] =>
            destruct (to_sql s d n c i b w) as [? [[]|?]]; [|done]
        end).
  match goal with
  | |- context [to_sql ?s ?d ?n ?c ?i ?b ?w] =>
      by destruct (to_sql s d n c i b w) as [? [[]|?]]
  end.
Qed.

(** ** What the dict display of the first eight labels does to a label *)

Lemma dict_literal_elem items k v :
  dict_literal items !! k = Some v → (k, v) ∈ items.
Proof.
  induction items as [|[k' v'] items IH] using rev_ind; [done|].
  rewrite dict_literal_snoc. intros Hl. apply elem_of_app.
  destruct (decide (k' = k)) as [->|Hne].
  - rewrite lookup_insert_eq in Hl. simplify_eq.
    right. by apply list_elem_of_singleton.
  - rewrite lookup_insert_ne in Hl by done. left. by apply IH.
Qed.

Lemma dict_literal_key items k :
  k ∈ items.*1 → is_Some (dict_literal items !! k).
Proof.
  induction items as [|[k' v'] items IH] using rev_ind; intros Hk.
  - by apply elem_of_nil in Hk.
  - rewrite dict_literal_snoc. rewrite fmap_app in Hk.
    destruct (decide (k' = k)) as [->|Hne].
    + rewrite lookup_insert_eq. by eexists.
    + rewrite lookup_insert_ne by done. apply IH.
      apply elem_of_app in Hk as [Hk|Hk]; [done|].
      apply list_elem_of_singleton in Hk. by destruct Hne.
Qed.

Section Renaming.

Variable labels : list string.
Hypothesis enough : (8 ≤ length labels)%nat.

Lemma mapper_keys : (zip (take 8 labels) historical_names).*1 = take 8 labels.
Proof.
  apply fst_zip. rewrite length_take.
  change (length historical_names) with 8%nat. lia.
Qed.

(** A label among the first eight is renamed to one of the eight names. *)
Lemma renamed_first l :
  l ∈ take 8 labels → default l (positional_mapper labels !! l) ∈ historical_names.
Proof.
  intros Hl. destruct (dict_literal_key (zip (take 8 labels) historical_names) l)
    as [v Hv]; [by rewrite mapper_keys|].
  unfold positional_mapper. rewrite Hv. simpl.
  apply dict_literal_elem in Hv. by apply elem_of_zip_r in Hv.
Qed.

(** Any other label is kept. *)
Lemma renamed_other l : l ∉ take 8 labels → default l (positional_mapper labels !! l) = l.
Proof.
  intros Hl. unfold positional_mapper. rewrite dict_literal_absent; [done|].
  by rewrite mapper_keys.
Qed.

(** The label [x], which is none of the eight names, is a column after the
    renaming exactly when a column past the eighth carries it and none of
    the first eight does. *)
Lemma renamed_clash x :
  x ∉ historical_names →
  x ∈ renamed_labels labels ↔ x ∈ drop 8 labels ∧ x ∉ take 8 labels.
Proof.
  intros Hx. unfold renamed_labels. rewrite list_elem_of_fmap. split.
  - intros (l & -> & Hl).
    destruct (decide (l ∈ take 8 labels)) as [Hin|Hout].
    + destruct Hx. by apply renamed_first.
    + rewrite renamed_other by done. split; [|done].
      rewrite <- (take_drop 8 labels) in Hl.
      apply elem_of_app in Hl as [Hl|Hl]; [by destruct Hout|done].
  - intros [Hin Hout]. exists x. split; [by rewrite renamed_other|].
    rewrite <- (take_drop 8 labels). apply elem_of_app. by right.
Qed.

(** Pairwise distinct labels: the first eight get the eight names in order,
    the others stay. *)
Lemma renamed_distinct :
  NoDup labels → renamed_labels labels = historical_names ++ drop 8 labels.
Proof.
  intros Hnd. unfold renamed_labels, positional_mapper.
  rewrite <- (take_drop 8 labels) at 1.
  rewrite <- (take_drop 8 labels) in Hnd.
  apply NoDup_app in Hnd as (Hnd & Hfresh & _).
  rewrite fmap_app. f_equal.
  - apply rename_labels_zip; [done|]. rewrite length_take.
    change (length historical_names) with 8%nat. lia.
  - apply rename_labels_other. intros l Hl Hin. by apply (Hfresh l).
Qed.

End Renaming.

Lemma date_not_historical : "date" ∉ historical_names.
Proof. apply (bool_decide_unpack _). vm_compute. exact I. Qed.

(** The outcome of the shaping for a frame with eight columns or more whose
    index is named [date]. *)
Lemma shape_historical_date (data : DataFrame) :
  (8 ≤ length (columns data))%nat →
  index_name data = Some "date" →
  let renamed :=
    rename (dict_literal (zip (take 8 (columns data)) historical_names)) data in
  shape_historical data =
  if bool_decide ("date" ∈ drop 8 (columns data) ∧
                  "date" ∉ take 8 (columns data))
  then Raise (ValueError "cannot insert date, already exists")
  else Ok (mkDataFrame None (RangeIndex (nrows data))
                       (("date", index data) :: cols renamed)).
Proof.
  intros Hlen Hname renamed. rewrite shape_historical_long by done.
  fold renamed. unfold reset_index, reset_index_label.
  change (index_name renamed) with (index_name data). rewrite Hname.
  assert ("date" ∈ columns renamed ↔
          "date" ∈ drop 8 (columns data) ∧ "date" ∉ take 8 (columns data))
    as Hclash.
  { unfold renamed. rewrite columns_rename.
    exact (renamed_clash (columns data) Hlen "date" date_not_historical). }
  rewrite (bool_decide_ext _ _ Hclash). reflexivity.
Qed.

Lemma get_historical_data_result av self w :
  (get_historical_data av self w).2 =
  match get_daily_adjusted av (ts self) (ticker self) "full" with
  | Ok (data, _) => shape_historical data
  | Raise e => Raise e
  end.
Proof.
  unfold get_historical_data. unfold_M.
  destruct (get_daily_adjusted av (ts self) (ticker self) "full")
    as [[data meta]|e]; [|done].
  by destruct (shape_historical data).
Qed.

(** ** Claims on [get_historical_data] *)

(** C1, as stated, fails: a response with nine columns is within "at least
    eight", and the frame returned for it has ten columns, the ninth label of
    the provider following the nine fixed names. *)
Lemma get_historical_data_nine_columns :
  let av := Samples.provider_with_daily Samples.nine_columns in
  let self := __init__ Samples.keys_a "MSFT" in
  get_daily_adjusted av (ts self) (ticker self) "full"
    = Ok (Samples.nine_columns, VStr "MSFT") ∧
  (8 ≤ length (columns Samples.nine_columns))%nat ∧
  index_name Samples.nine_columns = Some "date" ∧
  ∃ df, (get_historical_data av self empty_world).2 = Ok df ∧
        columns df = "date" :: historical_names ++ ["9. extra"] ∧
        columns df ≠ "date" :: historical_names.
Proof.
  simpl. split; [done|]. split; [vm_compute; lia|]. split; [done|].
  eexists. split; [vm_compute; reflexivity|]. by split.
Qed.

(** C1 (amended): for every response of the daily-adjusted call whose index
    is named [date] and whose columns, eight or more, carry pairwise
    distinct labels none of which past the eighth is [date],
    [get_historical_data] returns a frame whose first nine column names are
    [date, open, high, low, close, adjusted_close, volume, dividend_amount,
    split_coefficient] in that order whatever the provider's labels, followed
    by the labels of the columns past the eighth; the first column holds the
    response's index.  With exactly eight columns the names are exactly
    those nine. *)
Theorem get_historical_data_columns av self w data meta :
  get_daily_adjusted av (ts self) (ticker self) "full" = Ok (data, meta) →
  index_name data = Some "date" →
  (8 ≤ length (columns data))%nat →
  NoDup (columns data) →
  "date" ∉ drop 8 (columns data) →
  ∃ df, (get_historical_data av self w).2 = Ok df ∧
        columns df = "date" :: historical_names ++ drop 8 (columns data) ∧
        cols df !! 0%nat = Some ("date", index data) ∧
        (length (columns data) = 8%nat →
         columns df = "date" :: historical_names).
Proof.
  intros Hcall Hname Hlen Hnd Hdate.
  rewrite get_historical_data_result, Hcall.
  rewrite shape_historical_date by done.
  rewrite bool_decide_eq_false_2 by (by intros [? _]).
  eexists. split; [done|].
  assert (columns
            (rename (dict_literal (zip (take 8 (columns data)) historical_names))
                    data)
          = historical_names ++ drop 8 (columns data)) as Hcols.
  { rewrite columns_rename. by apply renamed_distinct. }
  change ("date" :: columns
            (rename (dict_literal (zip (take 8 (columns data)) historical_names))
                    data)
          = "date" :: historical_names ++ drop 8 (columns data) ∧
          Some ("date", index data) = Some ("date", index data) ∧
          (length (columns data) = 8%nat →
           "date" :: columns
             (rename (dict_literal (zip (take 8 (columns data)) historical_names))
                     data)
           = "date" :: historical_names)).
  rewrite Hcols. split; [done|]. split; [done|].
  intros Heq. by rewrite drop_ge, app_nil_r by lia.
Qed.

Lemma get_historical_data_columns_witness :
  ∃ df,
    (get_historical_data Samples.provider (__init__ Samples.keys_a "MSFT")
                         empty_world).2 = Ok df ∧
    columns df = "date" :: historical_names ++ [] ∧
    cols df !! 0%nat = Some ("date", index Samples.msft_daily) ∧
    (length (columns Samples.msft_daily) = 8%nat →
     columns df = "date" :: historical_names).
Proof.
  apply (get_historical_data_columns Samples.provider
           (__init__ Samples.keys_a "MSFT") empty_world
           Samples.msft_daily (VStr "MSFT")).
  - reflexivity.
  - reflexivity.
  - vm_compute. lia.
  - apply (bool_decide_unpack _). vm_compute. exact I.
  - apply (bool_decide_unpack _). vm_compute. exact I.
Defined.

(** Equal labels among the first eight share one key of the dict display,
    so both columns get the name given last. *)
Example shape_historical_twin_labels :
  ∃ df, shape_historical Samples.twin_labels = Ok df ∧
        columns df = ["date"; "high"; "high"; "low"; "close"; "adjusted_close";
                      "volume"; "dividend_amount"; "split_coefficient"].
Proof. eexists. split; [vm_compute; reflexivity|reflexivity]. Qed.

(** C2, as stated, fails in its last part: the index-out-of-range is not
    the only way the shaping fails.  A response with nine columns, the ninth
    labelled [date], passes the eight positional reads and then fails in
    [reset_index] with a [ValueError]. *)
Lemma get_historical_data_date_clash :
  let av := Samples.provider_with_daily Samples.date_clash in
  let self := __init__ Samples.keys_a "MSFT" in
  get_daily_adjusted av (ts self) (ticker self) "full"
    = Ok (Samples.date_clash, VStr "MSFT") ∧
  ¬ (length (columns Samples.date_clash) < 8)%nat ∧
  (get_historical_data av self empty_world).2
    = Raise (ValueError "cannot insert date, already exists") ∧
  (get_historical_data av self empty_world).2 ≠ Raise IndexError.
Proof.
  simpl. split; [done|]. split; [vm_compute; lia|].
  split; [vm_compute; reflexivity|].
  vm_compute. discriminate.
Qed.

(** C2 (amended): for every response of the daily-adjusted call that has
    fewer than eight columns, [get_historical_data] fails with [IndexError]
    on the positional column access, so no truncated table is returned.
    That is one of two ways the shaping fails: when the index is named
    [date], the shaping fails exactly if the response has fewer than eight
    columns (with [IndexError]) or has a column past the eighth labelled
    [date] while none of the first eight is (with the [ValueError] of
    [reset_index]). *)
Theorem get_historical_data_failure av self w data meta :
  get_daily_adjusted av (ts self) (ticker self) "full" = Ok (data, meta) →
  ((length (columns data) < 8)%nat →
   (get_historical_data av self w).2 = Raise IndexError) ∧
  (index_name data = Some "date" →
   ∀ e, (get_historical_data av self w).2 = Raise e ↔
        ((length (columns data) < 8)%nat ∧ e = IndexError) ∨
        ((8 ≤ length (columns data))%nat ∧
         "date" ∈ drop 8 (columns data) ∧ ("date" ∉ take 8 (columns data)) ∧
         e = ValueError "cannot insert date, already exists")).
Proof.
  intros Hcall. rewrite get_historical_data_result, Hcall. split.
  - apply shape_historical_short.
  - intros Hname e.
    destruct (decide (length (columns data) < 8)%nat) as [Hshort|Hlong].
    + rewrite shape_historical_short by done. split.
      * intros [= <-]. by left.
      * intros [[_ ->]|[Hlen _]]; [done|lia].
    + rewrite shape_historical_date by (done || lia). case_bool_decide as H.
      * split.
        -- intros [= <-]. right. split; [lia|]. by destruct H.
        -- intros [[Hlen _]|(_ & _ & _ & ->)]; [lia|done].
      * split; [done|].
        intros [[Hlen _]|(_ & Hin & Hout & _)]; [lia|]. by destruct H.
Qed.

Lemma get_historical_data_failure_witness :
  (get_historical_data (Samples.provider_with_daily Samples.seven_columns)
                       (__init__ Samples.keys_a "MSFT") empty_world).2
  = Raise IndexError.
Proof.
  refine (proj1 (get_historical_data_failure
                   (Samples.provider_with_daily Samples.seven_columns)
                   (__init__ Samples.keys_a "MSFT") empty_world
                   Samples.seven_columns (VStr "MSFT") _) _).
  - reflexivity.
  - apply Nat.ltb_lt. reflexivity.
Defined.

(** ** Frames built from records *)








Lemma columns_DataFrame_of_dict d idx :
  columns (DataFrame_of_dict d idx) = dict_keys d.
Proof.
  unfold columns, DataFrame_of_dict, dict_keys; simpl.
  rewrite <- list_fmap_compose. apply list_fmap_ext. by intros i [k v] _.
Qed.





Lemma get_fundamental_data_result av self w :
  (get_fundamental_data av self w).2 =
  overview ← get_company_overview av (fd self) (ticker self);
  q_bs ← get_balance_sheet_quarterly av (fd self) (ticker self);
  q_is ← get_income_statement_quarterly av (fd self) (ticker self);
  q_cf ← get_cash_flow_quarterly av (fd self) (ticker self);
  Ok (DataFrame_of_dict overview.1 [VNum 0], from_records q_bs.1,
      from_records q_is.1, from_records q_cf.1).
Proof.
  unfold get_fundamental_data. unfold_M.
  unfold result_mbind, result_bind.
  destruct (get_company_overview av (fd self) (ticker self)); [|done].
  destruct (get_balance_sheet_quarterly av (fd self) (ticker self)); [|done].
  destruct (get_income_statement_quarterly av (fd self) (ticker self));
    [|done].
  by destruct (get_cash_flow_quarterly av (fd self) (ticker self)).
Qed.

(** ** Claim on [get_fundamental_data] *)



(** ** Logs *)

Lemma writes_app tr tr' : writes (tr ++ tr') = writes tr ++ writes tr'.
Proof. apply omap_app. Qed.

Lemma writes_EWrite names : writes (EWrite <$> names) = names.
Proof. induction names as [|n names IH]; [done|]. simpl. by f_equal. Qed.

Lemma writes_prefix_fetch_events self called :
  called `prefix_of` fetch_events self → writes called = [].
Proof.
  intros [rest Hrest]. unfold fetch_events in Hrest.
  do 5 (destruct called as [|? called]; [done|]; injection Hrest as <- Hrest).
  destruct called; [done|]. discriminate.
Qed.

Lemma result_of_get_historical_data av self w :
  (get_historical_data av self w).2 = result_of (get_historical_data av self).
Proof. by rewrite get_historical_data_run. Qed.

Lemma result_of_get_fundamental_data av self w :
  (get_fundamental_data av self w).2 = result_of (get_fundamental_data av self).
Proof. by rewrite get_fundamental_data_run. Qed.

Lemma events_of_get_historical_data av self :
  events_of (get_historical_data av self) = take 1 (fetch_events self).
Proof.
  unfold events_of, get_historical_data. unfold_M.
  destruct (get_daily_adjusted av (ts self) (ticker self) "full")
    as [[data meta]|e]; [|done].
  by destruct (shape_historical data).
Qed.

(** The fundamentals are fetched one endpoint after the other, each at most
    once, up to the first call that raises. *)
Lemma events_of_get_fundamental_data av self :
  events_of (get_fundamental_data av self) `prefix_of` drop 1 (fetch_events self)
  ∧ (is_ok (result_of (get_fundamental_data av self)) = true →
     events_of (get_fundamental_data av self) = drop 1 (fetch_events self)).
Proof.
  unfold events_of, result_of, get_fundamental_data, fetch_events. unfold_M.
  destruct (get_company_overview av (fd self) (ticker self));
    [|split; [by eexists|done]].
  destruct (get_balance_sheet_quarterly av (fd self) (ticker self));
    [|split; [by eexists|done]].
  destruct (get_income_statement_quarterly av (fd self) (ticker self));
    [|split; [by eexists|done]].
  destruct (get_cash_flow_quarterly av (fd self) (ticker self));
    split; (by eexists) || done.
Qed.

(** The fetch methods return only if every provider call did. *)
Lemma is_ok_get_historical_data av self :
  is_ok (result_of (get_historical_data av self)) = true →
  is_ok (get_daily_adjusted av (ts self) (ticker self) "full") = true.
Proof.
  rewrite <- (result_of_get_historical_data av self empty_world).
  rewrite get_historical_data_result.
  by destruct (get_daily_adjusted av (ts self) (ticker self) "full").
Qed.

Lemma is_ok_get_fundamental_data av self :
  is_ok (result_of (get_fundamental_data av self)) =
  is_ok (get_company_overview av (fd self) (ticker self)) &&
  is_ok (get_balance_sheet_quarterly av (fd self) (ticker self)) &&
  is_ok (get_income_statement_quarterly av (fd self) (ticker self)) &&
  is_ok (get_cash_flow_quarterly av (fd self) (ticker self)).
Proof.
  rewrite <- (result_of_get_fundamental_data av self empty_world).
  rewrite get_fundamental_data_result.
  destruct (get_company_overview av (fd self) (ticker self)); [|done].
  destruct (get_balance_sheet_quarterly av (fd self) (ticker self)); [|done].
  destruct (get_income_statement_quarterly av (fd self) (ticker self));
    [|done].
  by destruct (get_cash_flow_quarterly av (fd self) (ticker self)).
Qed.

Lemma save_jobs_names historical_data fundamentals :
  (save_jobs historical_data fundamentals).*1 = destination_tables.
Proof. by destruct fundamentals as [[[ov bs] is_] cf]. Qed.

Lemma NoDup_destination_tables : NoDup destination_tables.
Proof. apply (bool_decide_unpack _). vm_compute. exact I. Qed.

(** ** The write phase of [save_to_database] *)

(** Once both fetch methods have returned, the run is the sequence of the
    five writes: either all go through, or one is the first to fail and
    ends the run. *)
Lemma save_to_database_outcome av sql self conn_str w h f :
  valid_url sql conn_str = true →
  result_of (get_historical_data av self) = Ok h →
  result_of (get_fundamental_data av self) = Ok f →
  let con := {| url := conn_str |} in
  let fetched := trace w ++ ECreateEngine conn_str :: fetch_events self in
  (Forall (sound_write sql con) (save_jobs h f) ∧
   save_to_database av sql self conn_str w =
   (mkWorld (replace_tables conn_str (save_jobs h f) (db w))
            (fetched ++ (EWrite <$> destination_tables)),
    Ok tt))
  ∨
  (∃ pre name df post damage,
     save_jobs h f = pre ++ (name, df) :: post ∧
     Forall (sound_write sql con) pre ∧
     save_to_database av sql self conn_str w =
     (mkWorld (partial_alter damage (conn_str, name)
                             (replace_tables conn_str pre (db w)))
              (fetched ++ (EWrite <$> pre.*1 ++ [name])),
      Raise (PersistenceError name))).
Proof.
  intros Hurl Hh Hf con fetched.
  assert (save_to_database av sql self conn_str w =
          write_all sql con (save_jobs h f) (mkWorld (db w) fetched)) as ->.
  { rewrite save_to_database_run, Hurl, Hh, Hf. simpl.
    rewrite events_of_get_historical_data.
    destruct (events_of_get_fundamental_data av self) as [_ Hev].
    rewrite Hev by (by rewrite Hf).
    unfold fetched. by rewrite <- !app_assoc. }
  destruct (write_all_cases sql con (save_jobs h f))
    as [Hall | (pre & name & df & post & damage & Hsplit & Hpre & Hbad)].
  - left. split; [done|]. rewrite write_all_ok by done.
    by rewrite save_jobs_names.
  - right. exists pre, name, df, post, damage. split; [done|]. split; [done|].
    rewrite Hsplit. by rewrite (write_all_fault sql con pre name df post damage).
Qed.

(** Before both fetch methods have returned nothing is written. *)
Lemma save_to_database_no_write av sql self conn_str w :
  valid_url sql conn_str = false ∨
  is_ok (result_of (get_historical_data av self)) = false ∨
  is_ok (result_of (get_fundamental_data av self)) = false →
  ∃ called,
    called `prefix_of` fetch_events self ∧
    (save_to_database av sql self conn_str w).1 =
    mkWorld (db w) (trace w ++ ECreateEngine conn_str :: called) ∧
    is_ok (save_to_database av sql self conn_str w).2 = false ∧
    (valid_url sql conn_str = true →
     (save_to_database av sql self conn_str w).2 =
     match result_of (get_historical_data av self) with
     | Raise e => Raise e
     | Ok _ => match result_of (get_fundamental_data av self) with
               | Raise e => Raise e
               | Ok _ => Ok tt
               end
     end).
Proof.
  intros Hcase. rewrite save_to_database_run. simpl.
  rewrite events_of_get_historical_data.
  destruct (events_of_get_fundamental_data av self) as [[rest Hrest] _].
  destruct (valid_url sql conn_str).
  - destruct (result_of (get_historical_data av self)) as [h|e].
    + destruct (result_of (get_fundamental_data av self)) as [f|e].
      * by destruct Hcase as [?|[?|?]].
      * exists (take 1 (fetch_events self)
                  ++ events_of (get_fundamental_data av self)).
        split; [|by rewrite <- !app_assoc].
        exists rest. rewrite <- (take_drop 1 (fetch_events self)) at 1.
        by rewrite Hrest, app_assoc.
    + exists (take 1 (fetch_events self)).
      split; [apply prefix_take|]. by rewrite <- !app_assoc.
  - exists []. split; [apply prefix_nil|done].
Qed.

(** What a run returns does not depend on the world it starts in. *)
Lemma save_to_database_result av sql self conn_str w w' :
  (save_to_database av sql self conn_str w).2 =
  (save_to_database av sql self conn_str w').2.
Proof.
  rewrite !save_to_database_run. simpl.
  destruct (valid_url sql conn_str); [|done].
  destruct (result_of (get_historical_data av self)) as [h|e]; [|done].
  destruct (result_of (get_fundamental_data av self)) as [f|e]; [|done].
  destruct (write_all_cases sql {| url := conn_str |} (save_jobs h f))
    as [Hall | (pre & name & df & post & damage & -> & Hpre & Hbad)].
  - by rewrite !write_all_ok.
  - by rewrite !(write_all_fault sql _ pre name df post damage).
Qed.

(** ** Claims on [save_to_database] *)



(** The fetch methods pass on the exception of the provider call that
    raises first. *)
Lemma get_historical_data_raises av self w e :
  get_daily_adjusted av (ts self) (ticker self) "full" = Raise e →
  (get_historical_data av self w).2 = Raise e.
Proof. intros H. by rewrite get_historical_data_result, H. Qed.

Lemma get_fundamental_data_raises av self w e :
  get_company_overview av (fd self) (ticker self) = Raise e ∨
  (is_ok (get_company_overview av (fd self) (ticker self)) = true ∧
   (get_balance_sheet_quarterly av (fd self) (ticker self) = Raise e ∨
    (is_ok (get_balance_sheet_quarterly av (fd self) (ticker self)) = true ∧
     (get_income_statement_quarterly av (fd self) (ticker self) = Raise e ∨
      (is_ok (get_income_statement_quarterly av (fd self) (ticker self))
         = true ∧
       get_cash_flow_quarterly av (fd self) (ticker self) = Raise e))))) →
  (get_fundamental_data av self w).2 = Raise e.
Proof.
  rewrite get_fundamental_data_result.
  unfold mbind, result_mbind, result_bind.
  destruct (get_company_overview av (fd self) (ticker self)) as [?|e1].
  - intros [?|[_ H]]; [done|]. revert H.
    destruct (get_balance_sheet_quarterly av (fd self) (ticker self))
      as [?|e2].
    + intros [?|[_ H]]; [done|]. revert H.
      destruct (get_income_statement_quarterly av (fd self) (ticker self))
        as [?|e3].
      * intros [?|[_ H]]; [done|]. by rewrite H.
      * intros [H|[? _]]; [by simplify_eq|done].
    + intros [H|[? _]]; [by simplify_eq|done].
  - intros [H|[? _]]; [by simplify_eq|done].
Qed.

(** C4: when a fetch of a run of [save_to_database] raises (the historical
    fetch, or a fundamentals fetch after the historical one returned), the
    run performs no write at all, so none to a table that depended on the
    failed call: the stored tables are as before.  The exception is the
    result of the run, nothing catches it; nothing is called after the call
    that raised and no endpoint is called twice. *)
Theorem save_to_database_fetch_error av sql self conn_str w e :
  valid_url sql conn_str = true →
  (get_historical_data av self w).2 = Raise e ∨
  (is_ok (get_historical_data av self w).2 = true ∧
   (get_fundamental_data av self w).2 = Raise e) →
  let run := save_to_database av sql self conn_str w in
  run.2 = Raise e ∧
  db run.1 = db w ∧
  writes (trace run.1) = writes (trace w) ∧
  ∃ called, called `prefix_of` fetch_events self ∧
            trace run.1 = trace w ++ ECreateEngine conn_str :: called.
Proof.
  intros Hurl Hfetch run. subst run.
  rewrite result_of_get_historical_data in Hfetch.
  rewrite result_of_get_fundamental_data in Hfetch.
  destruct (save_to_database_no_write av sql self conn_str w)
    as (called & Hpre & Hw & _ & Hres).
  { destruct Hfetch as [H|[_ H]]; rewrite H; auto. }
  rewrite Hw, (Hres Hurl). cbn [fst db trace]. split.
  - destruct Hfetch as [H|[Hok H]]; [by rewrite H|].
    destruct (result_of (get_historical_data av self)); [|done].
    by rewrite H.
  - split; [done|]. split; [|by exists called].
    rewrite writes_app. change (writes (ECreateEngine conn_str :: called))
      with (writes called).
    by rewrite (writes_prefix_fetch_events self called Hpre), app_nil_r.
Qed.

Lemma save_to_database_fetch_error_witness :
  let run :=
    save_to_database Samples.limited_provider Samples.sound_backend
                     (__init__ Samples.keys_a "MSFT") Samples.conn
                     Samples.used_world in
  run.2 = Raise (ProviderError "rate limit") ∧
  db run.1 = db Samples.used_world.
Proof.
  intros run.
  destruct (save_to_database_fetch_error Samples.limited_provider
              Samples.sound_backend (__init__ Samples.keys_a "MSFT")
              Samples.conn Samples.used_world (ProviderError "rate limit"))
    as (Hres & Hdb & _).
  - reflexivity.
  - right. split; vm_compute; reflexivity.
  - split; [exact Hres|exact Hdb].
Defined.

(** C5: in every run of [save_to_database] the log shows the engine
    creation, then fetches, then writes: a write is logged only after all
    five fetches (historical series, overview, balance sheet, income
    statement, cash flow) were made and all five provider calls returned.
    Hence if any provider call raises, no table is written at all and the
    stored tables are as before. *)
Theorem save_to_database_fetches_first av sql self conn_str w :
  let run := save_to_database av sql self conn_str w in
  let all_returned :=
    is_ok (get_daily_adjusted av (ts self) (ticker self) "full") &&
    is_ok (get_company_overview av (fd self) (ticker self)) &&
    is_ok (get_balance_sheet_quarterly av (fd self) (ticker self)) &&
    is_ok (get_income_statement_quarterly av (fd self) (ticker self)) &&
    is_ok (get_cash_flow_quarterly av (fd self) (ticker self)) in
  ∃ called written,
    trace run.1 =
      trace w ++ ECreateEngine conn_str :: called ++ (EWrite <$> written) ∧
    called `prefix_of` fetch_events self ∧
    written `prefix_of` destination_tables ∧
    (written ≠ [] → called = fetch_events self ∧ all_returned = true) ∧
    (all_returned = false →
     written = [] ∧ db run.1 = db w ∧ is_ok run.2 = false).
Proof.
  cbv zeta.
  destruct (valid_url sql conn_str) eqn:Hurl;
    [destruct (result_of (get_historical_data av self)) as [h|e] eqn:Hh;
     [destruct (result_of (get_fundamental_data av self)) as [f|e] eqn:Hf|]|].
  - assert (is_ok (get_daily_adjusted av (ts self) (ticker self) "full") &&
            is_ok (get_company_overview av (fd self) (ticker self)) &&
            is_ok (get_balance_sheet_quarterly av (fd self) (ticker self)) &&
            is_ok (get_income_statement_quarterly av (fd self) (ticker self)) &&
            is_ok (get_cash_flow_quarterly av (fd self) (ticker self))
            = true) as Hall.
    { pose proof (is_ok_get_historical_data av self) as H1.
      pose proof (is_ok_get_fundamental_data av self) as H2.
      rewrite Hh in H1. rewrite Hf in H2. rewrite (H1 eq_refl). simpl.
      rewrite <- !andb_assoc in H2. by rewrite <- !andb_assoc. }
    rewrite Hall.
    destruct (save_to_database_outcome av sql self conn_str w h f Hurl Hh Hf)
      as [[_ Hrun] | (pre & name & df & post & damage & Hsplit & _ & Hrun)];
      rewrite Hrun; cbn [fst snd db trace].
    + exists (fetch_events self), destination_tables.
      split; [by rewrite <- app_assoc|]. done.
    + exists (fetch_events self), (pre.*1 ++ [name]).
      split; [by rewrite <- app_assoc|]. split; [done|]. split; [|done].
      exists post.*1. rewrite <- (save_jobs_names h f), Hsplit.
      by rewrite fmap_app, <- app_assoc.
  - destruct (save_to_database_no_write av sql self conn_str w)
      as (called & Hpre & Hw & Hbad & _); [rewrite Hf; auto|].
    exists called, []. rewrite Hw. cbn [fst db trace]. rewrite app_nil_r.
    split; [done|]. split; [done|]. split; [apply prefix_nil|done].
  - destruct (save_to_database_no_write av sql self conn_str w)
      as (called & Hpre & Hw & Hbad & _); [rewrite Hh; auto|].
    exists called, []. rewrite Hw. cbn [fst db trace]. rewrite app_nil_r.
    split; [done|]. split; [done|]. split; [apply prefix_nil|done].
  - destruct (save_to_database_no_write av sql self conn_str w)
      as (called & Hpre & Hw & Hbad & _); [auto|].
    exists called, []. rewrite Hw. cbn [fst db trace]. rewrite app_nil_r.
    split; [done|]. split; [done|]. split; [apply prefix_nil|done].
Qed.

Lemma save_to_database_fetches_first_witness :
  let run :=
    save_to_database Samples.limited_provider Samples.sound_backend
                     (__init__ Samples.keys_a "MSFT") Samples.conn
                     Samples.used_world in
  db run.1 = db Samples.used_world ∧ is_ok run.2 = false.
Proof.
  intros run.
  destruct (save_to_database_fetches_first Samples.limited_provider
              Samples.sound_backend (__init__ Samples.keys_a "MSFT")
              Samples.conn Samples.used_world)
    as (called & written & _ & _ & _ & _ & Hraised).
  destruct Hraised as (_ & Hdb & Hres); [reflexivity|].
  split; [exact Hdb|exact Hres].
Defined.

(** A run that returns has fetched everything and carried out the five
    writes, whatever world it started in. *)
Lemma save_to_database_returns av sql self conn_str w :
  (save_to_database av sql self conn_str w).2 = Ok tt →
  ∃ h f,
    result_of (get_historical_data av self) = Ok h ∧
    result_of (get_fundamental_data av self) = Ok f ∧
    ∀ w', save_to_database av sql self conn_str w' =
          (mkWorld (replace_tables conn_str (save_jobs h f) (db w'))
                   ((trace w' ++ ECreateEngine conn_str :: fetch_events self)
                      ++ (EWrite <$> destination_tables)),
           Ok tt).
Proof.
  intros Hok.
  destruct (valid_url sql conn_str) eqn:Hurl;
    [destruct (result_of (get_historical_data av self)) as [h|e] eqn:Hh;
     [destruct (result_of (get_fundamental_data av self)) as [f|e] eqn:Hf|]|].
  - exists h, f. split; [done|]. split; [done|]. intros w'.
    destruct (save_to_database_outcome av sql self conn_str w' h f Hurl Hh Hf)
      as [[_ Hrun] | (pre & name & df & post & damage & _ & _ & Hrun)];
      [done|].
    pose proof (save_to_database_result av sql self conn_str w w') as Heq.
    by rewrite Hok, Hrun in Heq.
  - destruct (save_to_database_no_write av sql self conn_str w)
      as (_ & _ & _ & Hbad & _); [rewrite Hf; auto|]. by rewrite Hok in Hbad.
  - destruct (save_to_database_no_write av sql self conn_str w)
      as (_ & _ & _ & Hbad & _); [rewrite Hh; auto|]. by rewrite Hok in Hbad.
  - destruct (save_to_database_no_write av sql self conn_str w)
      as (_ & _ & _ & Hbad & _); [auto|]. by rewrite Hok in Hbad.
Qed.

Lemma writes_fetched self conn_str tr names :
  writes ((tr ++ ECreateEngine conn_str :: fetch_events self)
            ++ (EWrite <$> names)) = writes tr ++ names.
Proof. by rewrite !writes_app, writes_EWrite, app_nil_r. Qed.

(** C6: once both fetch methods have returned, [save_to_database] writes in
    the fixed order historical data, overview, balance sheet, income
    statement, cash flow.  Either all five writes go through and the run
    returns, or one write is the first to fail: then the run ends with its
    [PersistenceError], the tables written before hold their new content and
    the tables that were to follow are as before the run; nothing undoes the
    earlier writes. *)
Theorem save_to_database_write_order av sql self conn_str w h f :
  valid_url sql conn_str = true →
  (get_historical_data av self w).2 = Ok h →
  (get_fundamental_data av self w).2 = Ok f →
  let run := save_to_database av sql self conn_str w in
  destination_tables =
    ["historical_data"; "microsoft"; "balance_sheet_data";
     "income_statement_data"; "cash_flow_data"] ∧
  ((run.2 = Ok tt ∧
    writes (trace run.1) = writes (trace w) ++ destination_tables ∧
    ∀ name df, (name, df) ∈ save_jobs h f →
               db run.1 !! (conn_str, name) = Some (cols df))
   ∨
   (∃ pre name post,
      destination_tables = pre ++ name :: post ∧
      run.2 = Raise (PersistenceError name) ∧
      writes (trace run.1) = writes (trace w) ++ pre ++ [name] ∧
      (∀ n df, n ∈ pre → (n, df) ∈ save_jobs h f →
               db run.1 !! (conn_str, n) = Some (cols df)) ∧
      (∀ n, n ∈ post → db run.1 !! (conn_str, n) = db w !! (conn_str, n)))).
Proof.
  intros Hurl Hh Hf. cbv zeta. split; [done|].
  rewrite result_of_get_historical_data in Hh.
  rewrite result_of_get_fundamental_data in Hf.
  pose proof NoDup_destination_tables as Hnd.
  rewrite <- (save_jobs_names h f) in Hnd.
  destruct (save_to_database_outcome av sql self conn_str w h f Hurl Hh Hf)
    as [[_ Hrun] | (pre & name & df & post & damage & Hsplit & _ & Hrun)];
    rewrite Hrun; cbn [fst snd db trace].
  - left. split; [done|]. split; [apply writes_fetched|].
    intros name df Hin. by apply replace_tables_written.
  - right. exists pre.*1, name, post.*1.
    rewrite Hsplit, fmap_app in Hnd. simpl in Hnd.
    apply NoDup_app in Hnd as (Hpre & Hfresh & Hpost).
    apply NoDup_cons in Hpost as [Hname Hpost].
    split; [by rewrite <- (save_jobs_names h f), Hsplit, fmap_app|].
    split; [done|]. split; [apply writes_fetched|]. split.
    + intros n df' Hn Hin.
      rewrite lookup_partial_alter_ne.
      * apply replace_tables_written; [done|].
        rewrite Hsplit in Hin. apply elem_of_app in Hin as [Hin|Hin]; [done|].
        destruct (Hfresh n Hn).
        apply (list_elem_of_fmap_2 fst) in Hin. done.
      * intros Heq. injection Heq as Heq. subst n.
        apply (Hfresh name Hn). by left.
    + intros n Hn. rewrite lookup_partial_alter_ne.
      * apply replace_tables_other. intros n' Hn' Heq.
        injection Heq as Heq. subst n'.
        apply (Hfresh n Hn'). by right.
      * intros Heq. injection Heq as Heq. by subst n.
Qed.

Lemma save_to_database_write_order_witness :
  let self := __init__ Samples.keys_a "MSFT" in
  let run :=
    save_to_database Samples.provider Samples.broken_backend self Samples.conn
                     Samples.used_world in
  run.2 = Raise (PersistenceError "balance_sheet_data") ∧
  writes (trace run.1) = ["historical_data"; "microsoft"; "balance_sheet_data"] ∧
  db run.1 !! (Samples.conn, "income_statement_data") = Some Samples.old_table.
Proof.
  intros self run.
  destruct (save_to_database_write_order Samples.provider
              Samples.broken_backend self Samples.conn Samples.used_world
              (mkDataFrame None (RangeIndex 2)
                 (("date", index Samples.msft_daily)
                    :: zip historical_names
                         ((cols Samples.msft_daily).*2)))
              (DataFrame_of_dict (Samples.overview_of "MSFT" "MSFT Corporation")
                                 [VNum 0],
               from_records (Samples.four_quarters 4),
               from_records (Samples.four_quarters 10),
               from_records (Samples.four_quarters 20)))
    as [_ [[Hok _] | (pre & name & post & Hsplit & Hres & Hwr & _ & Hpost)]].
  - reflexivity.
  - vm_compute. reflexivity.
  - vm_compute. reflexivity.
  - exfalso. fold run in Hok.
    assert (run.2 = Raise (PersistenceError "balance_sheet_data")) as Hrun
      by (vm_compute; reflexivity).
    rewrite Hrun in Hok. discriminate.
  - fold run in Hres, Hwr, Hpost.
    assert (run.2 = Raise (PersistenceError "balance_sheet_data")) as Hrun
      by (vm_compute; reflexivity).
    rewrite Hrun in Hres. injection Hres as <-.
    assert (pre = ["historical_data"; "microsoft"] ∧
            post = ["income_statement_data"; "cash_flow_data"]) as [-> ->].
    { unfold destination_tables in Hsplit.
      destruct pre as [|p0 [|p1 [|p2 [|p3 [|p4 [|p5 pre]]]]]];
        simpl in Hsplit; simplify_eq; done. }
    split; [done|]. split; [exact Hwr|].
    rewrite Hpost by (by left). reflexivity.
Defined.

(** C7: whatever the ticker, a run of [save_to_database] that returns has
    written exactly five tables, under the five fixed names; no other
    stored table has changed.  The names do not depend on the ticker: a run
    for a second ticker writes the same five tables, and what the first run
    stored is gone, the stored tables being those of a run for the second
    ticker alone. *)
Theorem save_to_database_same_tables av sql self1 self2 conn_str w :
  let run1 := save_to_database av sql self1 conn_str w in
  let run2 := save_to_database av sql self2 conn_str run1.1 in
  run1.2 = Ok tt →
  run2.2 = Ok tt →
  writes (trace run1.1) = writes (trace w) ++ destination_tables ∧
  writes (trace run2.1) = writes (trace run1.1) ++ destination_tables ∧
  length destination_tables = 5%nat ∧
  (∀ name, name ∈ destination_tables →
           is_Some (db run1.1 !! (conn_str, name))) ∧
  (∀ key, db run1.1 !! key ≠ db w !! key →
          ∃ name, name ∈ destination_tables ∧ key = (conn_str, name)) ∧
  db run2.1 = db (save_to_database av sql self2 conn_str w).1.
Proof.
  cbv zeta. intros Hok1 Hok2.
  destruct (save_to_database_returns av sql self1 conn_str w Hok1)
    as (h1 & f1 & _ & _ & Hrun1).
  destruct (save_to_database_returns av sql self2 conn_str _ Hok2)
    as (h2 & f2 & _ & _ & Hrun2).
  rewrite !Hrun2, !Hrun1. cbn [fst snd db trace].
  rewrite !writes_fetched.
  split; [done|]. split; [done|]. split; [done|]. split; [|split].
  - intros name Hname. rewrite <- (save_jobs_names h1 f1) in Hname.
    apply list_elem_of_fmap in Hname as ([n df] & -> & Hin).
    rewrite (replace_tables_written _ _ _ n df); [by eexists| |done].
    rewrite save_jobs_names. apply NoDup_destination_tables.
  - intros [u n] Hchanged.
    destruct (decide (u = conn_str ∧ n ∈ destination_tables)) as [[-> Hn]|Hout].
    + by exists n.
    + destruct Hchanged. apply replace_tables_other.
      intros name Hname Heq. injection Heq as -> ->.
      apply Hout. by rewrite <- (save_jobs_names h1 f1).
  - apply replace_tables_over.
    + rewrite save_jobs_names. apply NoDup_destination_tables.
    + by rewrite !save_jobs_names.
Qed.

Lemma save_to_database_same_tables_witness :
  let msft := __init__ Samples.keys_a "MSFT" in
  let aapl := __init__ Samples.keys_a "AAPL" in
  let run1 :=
    save_to_database Samples.provider Samples.sound_backend msft Samples.conn
                     empty_world in
  let run2 :=
    save_to_database Samples.provider Samples.sound_backend aapl Samples.conn
                     run1.1 in
  writes (trace run2.1) = writes (trace run1.1) ++ destination_tables ∧
  db run2.1 =
  db (save_to_database Samples.provider Samples.sound_backend aapl
                       Samples.conn empty_world).1.
Proof.
  intros msft aapl run1 run2.
  destruct (save_to_database_same_tables Samples.provider
              Samples.sound_backend msft aapl Samples.conn empty_world)
    as (_ & Hwr & _ & _ & _ & Hdb).
  - vm_compute. reflexivity.
  - vm_compute. reflexivity.
  - split; [exact Hwr|exact Hdb].
Defined.

(** C8: for every ticker the overview frame is written to the table named
    [microsoft]: after a run that returns, that table holds the one-row
    overview frame of the ticker, and [microsoft] is the second table
    written.  The name is a constant of the program. *)
Theorem save_to_database_overview_table av sql self conn_str w overview meta :
  get_company_overview av (fd self) (ticker self) = Ok (overview, meta) →
  let run := save_to_database av sql self conn_str w in
  run.2 = Ok tt →
  db run.1 !! (conn_str, "microsoft")
    = Some (cols (DataFrame_of_dict overview [VNum 0])) ∧
  writes (trace run.1) !! (length (writes (trace w)) + 1)%nat
    = Some "microsoft".
Proof.
  cbv zeta. intros Hov Hok.
  destruct (save_to_database_returns av sql self conn_str w Hok)
    as (h & f & _ & Hf & Hrun).
  rewrite Hrun. cbn [fst snd db trace]. rewrite writes_fetched.
  rewrite <- (result_of_get_fundamental_data av self w) in Hf.
  rewrite get_fundamental_data_result, Hov in Hf.
  unfold mbind, result_mbind, result_bind in Hf.
  destruct (get_balance_sheet_quarterly av (fd self) (ticker self)); [|done].
  destruct (get_income_statement_quarterly av (fd self) (ticker self));
    [|done].
  destruct (get_cash_flow_quarterly av (fd self) (ticker self)); [|done].
  injection Hf as <-. split.
  - apply replace_tables_written.
    + rewrite save_jobs_names. apply NoDup_destination_tables.
    + simpl. right. by left.
  - rewrite lookup_app_r by lia.
    by replace (length (writes (trace w)) + 1 - length (writes (trace w)))%nat
      with 1%nat by lia.
Qed.

Lemma save_to_database_overview_table_witness :
  let run :=
    save_to_database Samples.provider Samples.sound_backend
                     (__init__ Samples.keys_a "AAPL") Samples.conn
                     Samples.used_world in
  db run.1 !! (Samples.conn, "microsoft")
    = Some [("Symbol", [VStr "AAPL"]); ("Name", [VStr "AAPL Corporation"]);
            ("Sector", [VStr "TECHNOLOGY"])] ∧
  writes (trace run.1) !! 1%nat = Some "microsoft".
Proof.
  intros run.
  apply (save_to_database_overview_table Samples.provider
           Samples.sound_backend (__init__ Samples.keys_a "AAPL") Samples.conn
           Samples.used_world
           (Samples.overview_of "AAPL" "AAPL Corporation") VNaN).
  - reflexivity.
  - vm_compute. reflexivity.
Defined.

(** ** Claim on the constructor *)

(** Every run starts by creating the engine from the connection string it
    was called with. *)
Lemma save_to_database_engine av sql self conn_str w :
  ∃ rest, trace (save_to_database av sql self conn_str w).1 =
          trace w ++ ECreateEngine conn_str :: rest.
Proof.
  destruct (valid_url sql conn_str) eqn:Hurl;
    [destruct (result_of (get_historical_data av self)) as [h|e] eqn:Hh;
     [destruct (result_of (get_fundamental_data av self)) as [f|e] eqn:Hf|]|].
  - destruct (save_to_database_outcome av sql self conn_str w h f Hurl Hh Hf)
      as [[_ Hrun] | (pre & name & df & post & damage & _ & _ & Hrun)];
      rewrite Hrun; cbn [fst trace]; rewrite <- app_assoc; by eexists.
  - destruct (save_to_database_no_write av sql self conn_str w)
      as (called & _ & Hw & _); [rewrite Hf; auto|].
    rewrite Hw. by exists called.
  - destruct (save_to_database_no_write av sql self conn_str w)
      as (called & _ & Hw & _); [rewrite Hh; auto|].
    rewrite Hw. by exists called.
  - destruct (save_to_database_no_write av sql self conn_str w)
      as (called & _ & Hw & _); [auto|].
    rewrite Hw. by exists called.
Qed.

(** C10, as stated, fails: the constructor is given the ticker only.  Two
    constructions with the same argument give objects with different API
    keys when the module [keys] differs, so the key is drawn from the
    module-level state and not from an argument. *)
Lemma init_reads_module_key :
  api_key Samples.keys_a ≠ api_key Samples.keys_b ∧
  __init__ Samples.keys_a "MSFT" ≠ __init__ Samples.keys_b "MSFT" ∧
  ts_key (ts (__init__ Samples.keys_a "MSFT")) = "KEY-A" ∧
  ts_key (ts (__init__ Samples.keys_b "MSFT")) = "KEY-B".
Proof. split; [done|]. split; [done|]. by split. Qed.

(** C10 (amended): construction takes one input, the ticker symbol, and
    stores it.  The API key of both client objects is the value [api_key] of
    the imported module [keys], not an argument; the connection string plays
    no part in the construction and is the argument of [save_to_database],
    which creates its engine from it as its first step. *)
Theorem init_inputs keys ticker_symbol :
  let self := __init__ keys ticker_symbol in
  ticker self = ticker_symbol ∧
  ts_key (ts self) = api_key keys ∧
  fd_key (fd self) = api_key keys ∧
  ts_output_format (ts self) = "pandas" ∧
  (∀ keys', api_key keys' = api_key keys →
            __init__ keys' ticker_symbol = self) ∧
  (∀ av sql conn_str w,
     ∃ rest, trace (save_to_database av sql self conn_str w).1 =
             trace w ++ ECreateEngine conn_str :: rest).
Proof.
  cbv zeta. split; [done|]. split; [done|]. split; [done|]. split; [done|].
  split.
  - intros keys' Hkey. unfold __init__. by rewrite Hkey.
  - intros av sql conn_str w. apply save_to_database_engine.
Qed.

Lemma init_inputs_witness :
  ticker (__init__ Samples.keys_a "MSFT") = "MSFT" ∧
  ts_key (ts (__init__ Samples.keys_a "MSFT")) = "KEY-A".
Proof.
  destruct (init_inputs Samples.keys_a "MSFT") as (Hticker & Hkey & _).
  split; [exact Hticker|exact Hkey].
Defined.

(** * Further properties *)

(** ** More on the shaping of the historical frame *)

(** In a dict display the item given last for a key decides. *)
Lemma dict_literal_last items j k v :
  items !! j = Some (k, v) →
  (∀ j' kv, (j < j')%nat → items !! j' = Some kv → kv.1 ≠ k) →
  dict_literal items !! k = Some v.
Proof.
  revert j. induction items as [|[k' v'] items IH] using rev_ind;
    intros j Hj Hlast; [done|].
  rewrite dict_literal_snoc.
  destruct (decide (j = length items)) as [->|Hne].
  - rewrite lookup_app_r, Nat.sub_diag in Hj by lia. simpl in Hj.
    simplify_eq. by rewrite lookup_insert_eq.
  - assert (j < length items)%nat as Hlt.
    { apply lookup_lt_Some in Hj. rewrite length_app in Hj. simpl in Hj. lia. }
    rewrite lookup_app_l in Hj by done.
    rewrite lookup_insert_ne.
    + apply (IH j Hj). intros j' kv Hj' Hkv. apply (Hlast j' kv Hj').
      by rewrite lookup_app_l by (by eapply lookup_lt_Some).
    + apply (Hlast (length items) (k', v') Hlt).
      by rewrite lookup_app_r, Nat.sub_diag by lia.
Qed.

Lemma snd_cols_rename mapper df : (cols (rename mapper df)).*2 = (cols df).*2.
Proof.
  unfold rename; simpl. rewrite <- list_fmap_compose.
  apply list_fmap_ext. by intros i [l c] _.
Qed.

Lemma length_RangeIndex n : length (RangeIndex n) = n.
Proof. unfold RangeIndex. rewrite length_fmap, length_seqZ. lia. Qed.

(** The outcome of the shaping, whatever the name of the index. *)
Lemma shape_historical_Ok (data df : DataFrame) :
  shape_historical data = Ok df →
  (8 ≤ length (columns data))%nat ∧
  (reset_index_label (rename (positional_mapper (columns data)) data)
     ∉ renamed_labels (columns data)) ∧
  df = mkDataFrame None (RangeIndex (nrows data))
         ((reset_index_label (rename (positional_mapper (columns data)) data),
           index data)
            :: cols (rename (positional_mapper (columns data)) data)).
Proof.
  intros Hshape.
  destruct (decide (length (columns data) < 8)%nat) as [Hshort|Hlong].
  { by rewrite shape_historical_short in Hshape. }
  split; [lia|]. rewrite shape_historical_long in Hshape by lia.
  unfold reset_index in Hshape. fold (positional_mapper (columns data)) in Hshape.
  rewrite columns_rename in Hshape. fold (renamed_labels (columns data)) in Hshape.
  case_bool_decide as Hclash; [done|]. by simplify_eq.
Qed.

Lemma columns_shaped (data df : DataFrame) :
  shape_historical data = Ok df →
  columns df =
  reset_index_label (rename (positional_mapper (columns data)) data)
    :: renamed_labels (columns data).
Proof.
  intros Hshape. apply shape_historical_Ok in Hshape as (_ & _ & ->).
  unfold columns at 1. simpl. f_equal. apply columns_rename.
Qed.

(** X1: the shaping changes labels only.  The frame returned by
    [get_historical_data] holds the index of the response as the cells of
    its first column and, after it, the cells of the response's columns, all
    in the provider's order; it has as many rows as the response, one column
    more, and a fresh unnamed range index. *)
Theorem get_historical_data_cells av self w data meta df :
  get_daily_adjusted av (ts self) (ticker self) "full" = Ok (data, meta) →
  (get_historical_data av self w).2 = Ok df →
  (cols df).*2 = index data :: (cols data).*2 ∧
  index df = RangeIndex (nrows data) ∧
  index_name df = None ∧
  nrows df = nrows data ∧
  length (columns df) = S (length (columns data)).
Proof.
  intros Hcall Hrun. rewrite get_historical_data_result, Hcall in Hrun.
  apply shape_historical_Ok in Hrun as (_ & _ & ->).
  unfold nrows, columns. cbn [cols index index_name].
  rewrite fmap_cons. cbn [snd]. rewrite snd_cols_rename, length_RangeIndex.
  split; [done|]. split; [done|]. split; [done|]. split; [done|].
  rewrite fmap_cons. cbn [length]. unfold rename. cbn [cols].
  by rewrite !length_fmap.
Qed.

Lemma get_historical_data_cells_witness :
  ∃ df,
    (cols df).*2 = index Samples.msft_daily :: (cols Samples.msft_daily).*2 ∧
    nrows df = 2%nat.
Proof.
  eexists.
  destruct (get_historical_data_cells Samples.provider
              (__init__ Samples.keys_a "MSFT") empty_world
              Samples.msft_daily (VStr "MSFT") _ eq_refl eq_refl)
    as (Hcells & _ & _ & Hrows & _).
  split; [exact Hcells|exact Hrows].
Defined.

(** X2: the renaming goes by label, not by position.  A column whose label
    is none of the first eight labels keeps it; a column whose label occurs
    among the first eight, wherever the column stands, gets the name of the
    last of the first eight positions that carry this label. *)
Theorem get_historical_data_rename av self w data meta df i l :
  get_daily_adjusted av (ts self) (ticker self) "full" = Ok (data, meta) →
  (get_historical_data av self w).2 = Ok df →
  columns data !! i = Some l →
  (l ∉ take 8 (columns data) → columns df !! S i = Some l) ∧
  (∀ j, (j < 8)%nat → columns data !! j = Some l →
        (∀ j', (j < j' < 8)%nat → columns data !! j' ≠ Some l) →
        columns df !! S i = historical_names !! j).
Proof.
  intros Hcall Hrun Hi. rewrite get_historical_data_result, Hcall in Hrun.
  rewrite (columns_shaped data df Hrun). simpl.
  apply shape_historical_Ok in Hrun as (Hlen & _ & _).
  unfold renamed_labels. rewrite list_lookup_fmap, Hi. simpl. split.
  - intros Hout. by rewrite renamed_other.
  - intros j Hj Hlj Hlast.
    destruct (lookup_lt_is_Some_2 historical_names j) as [n Hn]; [done|].
    rewrite Hn. f_equal. unfold positional_mapper.
    rewrite (dict_literal_last _ j l n); [done| |].
    + rewrite lookup_zip_with, lookup_take_lt, Hlj by done. simpl.
      by rewrite Hn.
    + intros j' [l' n'] Hj' Hkv. simpl.
      apply lookup_zip_with_Some in Hkv as (x & y & Heq & Hx & Hy).
      simplify_eq. apply lookup_take_Some in Hx as [Hx Hlt].
      intros ->. by apply (Hlast j' (conj Hj' Hlt)).
Qed.

Lemma get_historical_data_rename_witness :
  ∃ df,
    (get_historical_data (Samples.provider_with_daily Samples.twin_labels)
                         (__init__ Samples.keys_a "MSFT") empty_world).2
      = Ok df ∧
    columns df !! 1%nat = Some "high".
Proof.
  eexists. split; [vm_compute; reflexivity|].
  refine (proj2 (get_historical_data_rename
                   (Samples.provider_with_daily Samples.twin_labels)
                   (__init__ Samples.keys_a "MSFT") empty_world
                   Samples.twin_labels (VStr "MSFT") _ 0 "x"
                   eq_refl _ eq_refl) 1%nat _ eq_refl _).
  - vm_compute. reflexivity.
  - lia.
  - intros j' [Hlo Hhi].
    do 8 (destruct j' as [|j']; [first [lia|discriminate]|]). lia.
Defined.

Lemma index_not_historical : "index" ∉ historical_names.
Proof. apply (bool_decide_unpack _). vm_compute. exact I. Qed.

(** With exactly eight columns every label is a key of the dict display. *)
Lemma renamed_eight (labels : list string) :
  length labels = 8%nat →
  Forall (λ l, l ∈ historical_names) (renamed_labels labels).
Proof.
  intros Hlen. unfold renamed_labels. apply Forall_fmap, Forall_forall.
  intros l Hl. simpl. apply renamed_first; [lia|].
  by rewrite take_ge by lia.
Qed.

(** X3: a response with exactly eight columns passes the eight positional
    reads whatever its labels.  The index becomes the first column under its
    own name, or under [index] when it has none; if that label is none of
    the eight fixed names the shaping succeeds and the eight data columns
    carry fixed names only.  If the label is one of the eight fixed names
    (and the provider's labels are pairwise distinct), [reset_index] fails
    with a [ValueError]. *)
Theorem get_historical_data_eight av self w data meta :
  get_daily_adjusted av (ts self) (ticker self) "full" = Ok (data, meta) →
  length (columns data) = 8%nat →
  (date_label data ∉ historical_names →
   ∃ df, (get_historical_data av self w).2 = Ok df ∧
         columns df !! 0%nat = Some (date_label data) ∧
         Forall (λ l, l ∈ historical_names) (drop 1 (columns df))) ∧
  (NoDup (columns data) → date_label data ∈ historical_names →
   (get_historical_data av self w).2 =
   Raise (ValueError ("cannot insert " +:+ date_label data
                        +:+ ", already exists"))).
Proof.
  intros Hcall Hlen. rewrite get_historical_data_result, Hcall.
  rewrite shape_historical_long by lia.
  fold (positional_mapper (columns data)).
  pose proof (renamed_eight (columns data) Hlen) as Hall.
  rewrite Forall_forall in Hall.
  unfold reset_index. rewrite columns_rename.
  fold (renamed_labels (columns data)). split.
  - intros Hfresh.
    assert (reset_index_label (rename (positional_mapper (columns data)) data)
            = date_label data) as ->.
    { unfold reset_index_label, date_label. simpl.
      destruct (index_name data) as [n|]; [done|]. simpl.
      rewrite columns_rename. fold (renamed_labels (columns data)).
      rewrite bool_decide_eq_false_2; [done|].
      intros Hin. by apply index_not_historical, Hall. }
    rewrite bool_decide_eq_false_2 by (intros Hin; by apply Hfresh, Hall).
    eexists. split; [done|]. split; [done|].
    unfold columns. simpl. rewrite drop_0.
    change (Forall (λ l, l ∈ historical_names)
              (columns (rename (positional_mapper (columns data)) data))).
    rewrite columns_rename. by apply renamed_eight.
  - intros Hnd Hin.
    assert (renamed_labels (columns data) = historical_names) as Hren.
    { rewrite (renamed_distinct (columns data) ltac:(lia) Hnd).
      by rewrite drop_ge, app_nil_r by lia. }
    assert (reset_index_label (rename (positional_mapper (columns data)) data)
            = date_label data) as ->.
    { unfold reset_index_label, date_label in *. simpl.
      destruct (index_name data) as [n|]; [done|]. simpl in Hin.
      by destruct index_not_historical. }
    rewrite Hren. by rewrite bool_decide_eq_true_2.
Qed.

Lemma get_historical_data_eight_witness :
  (∃ df,
     (get_historical_data
        (Samples.provider_with_daily EdgeCases.unnamed_index)
        (__init__ Samples.keys_a "MSFT") empty_world).2 = Ok df ∧
     columns df !! 0%nat = Some "index") ∧
  (get_historical_data
     (Samples.provider_with_daily EdgeCases.open_index)
     (__init__ Samples.keys_a "MSFT") empty_world).2
  = Raise (ValueError "cannot insert open, already exists").
Proof.
  split.
  - destruct (get_historical_data_eight
                (Samples.provider_with_daily EdgeCases.unnamed_index)
                (__init__ Samples.keys_a "MSFT") empty_world
                EdgeCases.unnamed_index (VStr "MSFT") eq_refl eq_refl)
      as [Hok _].
    destruct Hok as (df & Hrun & Hfirst & _).
    + apply (bool_decide_unpack _). vm_compute. exact I.
    + exists df. split; [exact Hrun|exact Hfirst].
  - refine (proj2 (get_historical_data_eight
                     (Samples.provider_with_daily EdgeCases.open_index)
                     (__init__ Samples.keys_a "MSFT") empty_world
                     EdgeCases.open_index (VStr "MSFT") eq_refl eq_refl) _ _).
    + apply (bool_decide_unpack _). vm_compute. exact I.
    + apply (bool_decide_unpack _). vm_compute. exact I.
Defined.

(** X4: the shaping keeps frames rectangular.  If every column of the
    response has one cell per index entry, so has every column of the frame
    that [get_historical_data] returns, the date column included. *)
Theorem get_historical_data_rectangular av self w data meta df :
  get_daily_adjusted av (ts self) (ticker self) "full" = Ok (data, meta) →
  (get_historical_data av self w).2 = Ok df →
  rectangular data → rectangular df.
Proof.
  intros Hcall Hrun Hrect. rewrite get_historical_data_result, Hcall in Hrun.
  apply shape_historical_Ok in Hrun as (_ & _ & ->).
  unfold rectangular, nrows in *. cbn [cols index].
  rewrite length_RangeIndex. constructor; [done|].
  unfold rename. cbn [cols]. apply Forall_fmap.
  eapply Forall_impl; [exact Hrect|]. by intros [l c].
Qed.

Lemma get_historical_data_rectangular_witness :
  ∃ df,
    (get_historical_data Samples.provider (__init__ Samples.keys_a "MSFT")
                         empty_world).2 = Ok df ∧
    rectangular df.
Proof.
  eexists. split; [vm_compute; reflexivity|].
  apply (get_historical_data_rectangular Samples.provider
           (__init__ Samples.keys_a "MSFT") empty_world
           Samples.msft_daily (VStr "MSFT")).
  - reflexivity.
  - vm_compute. reflexivity.
  - repeat constructor.
Defined.

(** ** More on the frames of the fundamentals *)




Lemma column_DataFrame_of_dict d idx k :
  column (cols (DataFrame_of_dict d idx)) k =
  replicate (length idx) <$> dict_get d k.
Proof.
  unfold DataFrame_of_dict. simpl.
  induction d as [|[k' v] d IH]; [done|]. simpl.
  by destruct (bool_decide (k' = k)).
Qed.

Lemma dict_get_None (d : pydict) k : dict_get d k = None → k ∉ dict_keys d.
Proof.
  unfold dict_keys. induction d as [|[k' v] d IH]; simpl.
  - intros _. apply not_elem_of_nil.
  - case_bool_decide as Hk; [done|]. intros Hnone.
    apply not_elem_of_cons. split; [done|]. by apply IH.
Qed.

(** What the four frames are, given what the four calls returned. *)
Lemma get_fundamental_data_Ok av self w overview_df bs_df is_df cf_df :
  (get_fundamental_data av self w).2 = Ok (overview_df, bs_df, is_df, cf_df) →
  ∃ overview q_bs q_is q_cf,
    get_company_overview av (fd self) (ticker self) = Ok overview ∧
    get_balance_sheet_quarterly av (fd self) (ticker self) = Ok q_bs ∧
    get_income_statement_quarterly av (fd self) (ticker self) = Ok q_is ∧
    get_cash_flow_quarterly av (fd self) (ticker self) = Ok q_cf ∧
    overview_df = DataFrame_of_dict overview.1 [VNum 0] ∧
    bs_df = from_records q_bs.1 ∧
    is_df = from_records q_is.1 ∧
    cf_df = from_records q_cf.1.
Proof.
  rewrite get_fundamental_data_result.
  unfold mbind, result_mbind, result_bind.
  destruct (get_company_overview av (fd self) (ticker self)) as [ov|];
    [|done].
  destruct (get_balance_sheet_quarterly av (fd self) (ticker self)) as [b|];
    [|done].
  destruct (get_income_statement_quarterly av (fd self) (ticker self))
    as [i|]; [|done].
  destruct (get_cash_flow_quarterly av (fd self) (ticker self)) as [c|];
    [|done].
  intros [= <- <- <- <-]. by exists ov, b, i, c.
Qed.





(** X7: reading a key back from the overview frame gives the value of the
    overview record for that key, in row 0 and in no other row; a key the
    record does not have is not a column. *)
Theorem get_fundamental_data_overview_cells av self w overview_df bs_df is_df
    cf_df overview meta k :
  (get_fundamental_data av self w).2 = Ok (overview_df, bs_df, is_df, cf_df) →
  get_company_overview av (fd self) (ticker self) = Ok (overview, meta) →
  cell overview_df k 0 = dict_get overview k ∧
  (∀ i, cell overview_df k (S i) = None) ∧
  (dict_get overview k = None → k ∉ columns overview_df).
Proof.
  intros Hrun Hov.
  apply get_fundamental_data_Ok in Hrun
    as (ov & b & i & c & Ho & _ & _ & _ & -> & _).
  rewrite Hov in Ho. simplify_eq. simpl.
  unfold cell. rewrite column_DataFrame_of_dict.
  split; [by destruct (dict_get overview k)|].
  split; [intros j; by destruct (dict_get overview k)|].
  rewrite columns_DataFrame_of_dict. apply dict_get_None.
Qed.

Lemma get_fundamental_data_overview_cells_witness :
  ∃ overview_df,
    cell overview_df "Name" 0 = Some (VStr "MSFT Corporation") ∧
    "MarketCapitalization" ∉ columns overview_df.
Proof.
  pose (self := __init__ Samples.keys_a "MSFT").
  eexists. split.
  - refine (proj1 (get_fundamental_data_overview_cells Samples.provider self
                     empty_world _ _ _ _
                     (Samples.overview_of "MSFT" "MSFT Corporation") VNaN
                     "Name" eq_refl eq_refl)).
  - refine (proj2 (proj2 (get_fundamental_data_overview_cells
                            Samples.provider self empty_world _ _ _ _
                            (Samples.overview_of "MSFT" "MSFT Corporation")
                            VNaN "MarketCapitalization" eq_refl eq_refl)) _).
    reflexivity.
Defined.

(** X8: [get_fundamental_data] calls the four endpoints in the order
    overview, balance sheet, income statement, cash flow and stops at the
    first call that raises: the endpoints after it are not called, no
    endpoint is called twice, and no stored table is touched.  It returns
    exactly when all four calls return. *)
Theorem get_fundamental_data_calls av self w :
  let run := get_fundamental_data av self w in
  let ov := is_ok (get_company_overview av (fd self) (ticker self)) in
  let bs := is_ok (get_balance_sheet_quarterly av (fd self) (ticker self)) in
  let is_ :=
    is_ok (get_income_statement_quarterly av (fd self) (ticker self)) in
  let cf := is_ok (get_cash_flow_quarterly av (fd self) (ticker self)) in
  let made := if ov then if bs then if is_ then 4 else 3 else 2 else 1 in
  db run.1 = db w ∧
  trace run.1 = trace w ++ take made (drop 1 (fetch_events self)) ∧
  is_ok run.2 = ov && bs && is_ && cf.
Proof.
  cbv zeta. unfold get_fundamental_data, fetch_events. unfold_M.
  destruct (get_company_overview av (fd self) (ticker self)); [|done].
  destruct (get_balance_sheet_quarterly av (fd self) (ticker self));
    [|by rewrite <- app_assoc].
  destruct (get_income_statement_quarterly av (fd self) (ticker self));
    [|by rewrite <- !app_assoc].
  destruct (get_cash_flow_quarterly av (fd self) (ticker self));
    by rewrite <- !app_assoc.
Qed.

Lemma get_fundamental_data_calls_witness :
  let self := __init__ Samples.keys_a "MSFT" in
  fetches (trace (get_fundamental_data EdgeCases.failing_balance_sheet self
                                       empty_world).1)
  = [CompanyOverview; BalanceSheetQuarterly].
Proof.
  intros self.
  destruct (get_fundamental_data_calls EdgeCases.failing_balance_sheet self
              empty_world) as (_ & Htrace & _).
  rewrite Htrace. reflexivity.
Defined.

(** ** More on [save_to_database] *)

(** X9: the engine is created before anything is fetched.  When
    [create_engine] rejects the connection string the run ends there: no
    provider call is made and no table is touched. *)
Theorem save_to_database_bad_url av sql self conn_str w :
  valid_url sql conn_str = false →
  save_to_database av sql self conn_str w =
  (mkWorld (db w) (trace w ++ [ECreateEngine conn_str]),
   Raise (ArgumentError "Could not parse SQLAlchemy URL")).
Proof. intros Hurl. by rewrite save_to_database_run, Hurl. Qed.

Lemma save_to_database_bad_url_witness :
  fetches (trace (save_to_database Samples.provider EdgeCases.strict_backend
                    (__init__ Samples.keys_a "MSFT") "stocks.db"
                    Samples.used_world).1) = [].
Proof.
  rewrite (save_to_database_bad_url Samples.provider EdgeCases.strict_backend
             (__init__ Samples.keys_a "MSFT") "stocks.db" Samples.used_world).
  - reflexivity.
  - reflexivity.
Defined.

(** X10: when the historical fetch fails, be it that the provider call
    raises or that the response is malformed and the shaping raises, the
    run ends with that exception after this one provider call: the
    fundamentals are never requested and no table is touched. *)
Theorem save_to_database_historical_error av sql self conn_str w e :
  valid_url sql conn_str = true →
  (get_historical_data av self w).2 = Raise e →
  save_to_database av sql self conn_str w =
  (mkWorld (db w)
           (trace w ++ [ECreateEngine conn_str;
                        EFetch DailyAdjusted (ts_key (ts self)) (ticker self)]),
   Raise e).
Proof.
  intros Hurl Hraise. rewrite result_of_get_historical_data in Hraise.
  rewrite save_to_database_run, Hurl, Hraise. cbn [trace].
  rewrite events_of_get_historical_data. by rewrite <- app_assoc.
Qed.

Lemma save_to_database_historical_error_witness :
  let run :=
    save_to_database (Samples.provider_with_daily Samples.seven_columns)
                     Samples.sound_backend (__init__ Samples.keys_a "MSFT")
                     Samples.conn Samples.used_world in
  run.2 = Raise IndexError ∧ fetches (trace run.1) = [DailyAdjusted].
Proof.
  intros run. subst run.
  rewrite (save_to_database_historical_error
             (Samples.provider_with_daily Samples.seven_columns)
             Samples.sound_backend (__init__ Samples.keys_a "MSFT")
             Samples.conn Samples.used_world IndexError).
  - split; reflexivity.
  - reflexivity.
  - vm_compute. reflexivity.
Defined.

(** The log of any run: engine creation, a prefix of the fetches, a prefix
    of the writes. *)
Lemma save_to_database_log av sql self conn_str w :
  ∃ called written,
    trace (save_to_database av sql self conn_str w).1 =
      trace w ++ ECreateEngine conn_str :: called ++ (EWrite <$> written) ∧
    called `prefix_of` fetch_events self ∧
    written `prefix_of` destination_tables.
Proof.
  destruct (valid_url sql conn_str) eqn:Hurl;
    [destruct (result_of (get_historical_data av self)) as [h|e] eqn:Hh;
     [destruct (result_of (get_fundamental_data av self)) as [f|e] eqn:Hf|]|].
  - destruct (save_to_database_outcome av sql self conn_str w h f Hurl Hh Hf)
      as [[_ Hrun] | (pre & name & df & post & damage & Hsplit & _ & Hrun)];
      rewrite Hrun; cbn [fst trace].
    + exists (fetch_events self), destination_tables.
      by rewrite <- app_assoc.
    + exists (fetch_events self), (pre.*1 ++ [name]).
      split; [by rewrite <- app_assoc|]. split; [done|].
      exists post.*1. rewrite <- (save_jobs_names h f), Hsplit.
      by rewrite fmap_app, <- app_assoc.
  - destruct (save_to_database_no_write av sql self conn_str w)
      as (called & Hpre & Hw & _); [rewrite Hf; auto|].
    exists called, []. rewrite Hw. cbn [fst trace]. rewrite app_nil_r.
    split; [done|]. split; [done|apply prefix_nil].
  - destruct (save_to_database_no_write av sql self conn_str w)
      as (called & Hpre & Hw & _); [rewrite Hh; auto|].
    exists called, []. rewrite Hw. cbn [fst trace]. rewrite app_nil_r.
    split; [done|]. split; [done|apply prefix_nil].
  - destruct (save_to_database_no_write av sql self conn_str w)
      as (called & Hpre & Hw & _); [auto|].
    exists called, []. rewrite Hw. cbn [fst trace]. rewrite app_nil_r.
    split; [done|]. split; [done|apply prefix_nil].
Qed.

(** A run changes no table but the five of its database. *)
Lemma save_to_database_elsewhere av sql self conn_str w key :
  (∀ name, name ∈ destination_tables → key ≠ (conn_str, name)) →
  db (save_to_database av sql self conn_str w).1 !! key = db w !! key.
Proof.
  intros Hkey.
  destruct (valid_url sql conn_str) eqn:Hurl;
    [destruct (result_of (get_historical_data av self)) as [h|e] eqn:Hh;
     [destruct (result_of (get_fundamental_data av self)) as [f|e] eqn:Hf|]|].
  - destruct (save_to_database_outcome av sql self conn_str w h f Hurl Hh Hf)
      as [[_ Hrun] | (pre & name & df & post & damage & Hsplit & _ & Hrun)];
      rewrite Hrun; cbn [fst db].
    + apply replace_tables_other. by rewrite save_jobs_names.
    + pose proof (save_jobs_names h f) as Hnames.
      rewrite Hsplit, fmap_app in Hnames. simpl in Hnames.
      rewrite lookup_partial_alter_ne.
      * apply replace_tables_other. intros n Hn. apply Hkey.
        rewrite <- Hnames. apply elem_of_app. by left.
      * intros Heq. apply (Hkey name); [|done].
        rewrite <- Hnames. apply elem_of_app. right. by left.
  - destruct (save_to_database_no_write av sql self conn_str w)
      as (called & _ & Hw & _); [rewrite Hf; auto|]. by rewrite Hw.
  - destruct (save_to_database_no_write av sql self conn_str w)
      as (called & _ & Hw & _); [rewrite Hh; auto|]. by rewrite Hw.
  - destruct (save_to_database_no_write av sql self conn_str w)
      as (called & _ & Hw & _); [auto|]. by rewrite Hw.
Qed.

(** X11: whatever happens in a run, also when a fetch or a write fails, a
    stored table is changed only if it is one of the five destination
    tables of the database the run was given: all tables of other databases
    and the tables of other names in that database are as before. *)
Theorem save_to_database_frame av sql self conn_str w :
  let stored := db (save_to_database av sql self conn_str w).1 in
  (∀ u name, u ≠ conn_str → stored !! (u, name) = db w !! (u, name)) ∧
  (∀ name, name ∉ destination_tables →
           stored !! (conn_str, name) = db w !! (conn_str, name)).
Proof.
  cbv zeta. split.
  - intros u name Hu. apply save_to_database_elsewhere.
    intros n _ Heq. injection Heq as Heq _. by destruct Hu.
  - intros name Hname. apply save_to_database_elsewhere.
    intros n Hn Heq. injection Heq as Heq. destruct Hname. by rewrite Heq.
Qed.

Lemma save_to_database_frame_witness :
  let run :=
    save_to_database Samples.provider EdgeCases.strict_backend
                     (__init__ Samples.keys_a "MSFT") Samples.conn
                     EdgeCases.crowded_world in
  db run.1 !! (EdgeCases.other_url, "historical_data")
    = Some Samples.old_table ∧
  db run.1 !! (Samples.conn, "watchlist") = Some Samples.old_table.
Proof.
  intros run. subst run.
  destruct (save_to_database_frame Samples.provider EdgeCases.strict_backend
              (__init__ Samples.keys_a "MSFT") Samples.conn
              EdgeCases.crowded_world) as [Hother Hname].
  split.
  - rewrite Hother; [reflexivity|discriminate].
  - rewrite Hname; [reflexivity|].
    apply (bool_decide_unpack _). vm_compute. exact I.
Defined.

Lemma omap_prefix {A B} (f : A → option B) (l1 l2 : list A) :
  l1 `prefix_of` l2 → omap f l1 `prefix_of` omap f l2.
Proof. intros [rest ->]. rewrite omap_app. by eexists. Qed.

(** X12: every provider call of a run of an object built by the constructor
    carries the API key of the module [keys] and the ticker given at
    construction; no other key and no other symbol is ever sent.  The calls
    are the five endpoints in program order, or a prefix of them. *)
Theorem save_to_database_requests keys av sql ticker_symbol conn_str w :
  let self := __init__ keys ticker_symbol in
  ∃ events,
    trace (save_to_database av sql self conn_str w).1 = trace w ++ events ∧
    fetches events `prefix_of`
      [DailyAdjusted; CompanyOverview; BalanceSheetQuarterly;
       IncomeStatementQuarterly; CashFlowQuarterly] ∧
    ∀ p k s, EFetch p k s ∈ events → k = api_key keys ∧ s = ticker_symbol.
Proof.
  intros self.
  destruct (save_to_database_log av sql self conn_str w)
    as (called & written & Htrace & Hcalled & _).
  exists (ECreateEngine conn_str :: called ++ (EWrite <$> written)).
  split; [done|]. split.
  - change (fetches (called ++ (EWrite <$> written))
              `prefix_of` fetches (fetch_events self)).
    unfold fetches. rewrite omap_app.
    replace (omap _ (EWrite <$> written)) with (@nil endpoint).
    + rewrite app_nil_r. by apply omap_prefix.
    + clear. induction written as [|n written IH]; [done|]. simpl. done.
  - intros p k s Hin.
    apply elem_of_cons in Hin as [Hin|Hin]; [done|].
    apply elem_of_app in Hin as [Hin|Hin].
    + destruct Hcalled as [rest Hrest].
      assert (EFetch p k s ∈ fetch_events self) as Hev.
      { rewrite Hrest. apply elem_of_app. by left. }
      unfold fetch_events in Hev. simpl in Hev.
      repeat (apply elem_of_cons in Hev as [Hev|Hev]; [by simplify_eq|]).
      by apply elem_of_nil in Hev.
    + apply list_elem_of_fmap in Hin as (n & Hn & _). done.
Qed.

Lemma save_to_database_requests_witness :
  ∃ events,
    trace (save_to_database Samples.limited_provider Samples.sound_backend
             (__init__ Samples.keys_b "AAPL") Samples.conn empty_world).1
      = events ∧
    ∀ p k s, EFetch p k s ∈ events → k = "KEY-B" ∧ s = "AAPL".
Proof.
  destruct (save_to_database_requests Samples.keys_b Samples.limited_provider
              Samples.sound_backend "AAPL" Samples.conn empty_world)
    as (events & Htrace & _ & Hreq).
  exists events. split; [exact Htrace|exact Hreq].
Defined.

(** X13: what a run that returns has stored is what the provider sent.  The
    table [historical_data] holds the index of the response as its first
    column and after it the cells of the response's columns, unchanged and
    in the provider's order; the fresh range index of the frame is not
    stored.  The three statement tables hold the frames built from the
    records of their endpoints. *)
Theorem save_to_database_stored av sql self conn_str w
    data m_daily q_bs m_bs q_is m_is q_cf m_cf :
  get_daily_adjusted av (ts self) (ticker self) "full" = Ok (data, m_daily) →
  get_balance_sheet_quarterly av (fd self) (ticker self) = Ok (q_bs, m_bs) →
  get_income_statement_quarterly av (fd self) (ticker self)
    = Ok (q_is, m_is) →
  get_cash_flow_quarterly av (fd self) (ticker self) = Ok (q_cf, m_cf) →
  (save_to_database av sql self conn_str w).2 = Ok tt →
  let stored := db (save_to_database av sql self conn_str w).1 in
  (∃ t, stored !! (conn_str, "historical_data") = Some t ∧
        t.*2 = index data :: (cols data).*2 ∧
        length t = S (length (columns data))) ∧
  stored !! (conn_str, "balance_sheet_data") = Some (cols (from_records q_bs)) ∧
  stored !! (conn_str, "income_statement_data")
    = Some (cols (from_records q_is)) ∧
  stored !! (conn_str, "cash_flow_data") = Some (cols (from_records q_cf)).
Proof.
  intros Hdaily Hbs His Hcf Hok. cbv zeta.
  destruct (save_to_database_returns av sql self conn_str w Hok)
    as (h & [[[ov bs] is_] cf] & Hh & Hf & Hrun).
  rewrite Hrun. cbn [fst db].
  rewrite <- (result_of_get_historical_data av self w) in Hh.
  rewrite <- (result_of_get_fundamental_data av self w) in Hf.
  apply get_fundamental_data_Ok in Hf
    as (o & b & i & c & _ & Hb & Hi & Hc & _ & -> & -> & ->).
  rewrite Hbs in Hb. rewrite His in Hi. rewrite Hcf in Hc. simplify_eq.
  assert (NoDup (save_jobs h (ov, from_records q_bs, from_records q_is,
                              from_records q_cf)).*1) as Hnd.
  { rewrite save_jobs_names. apply NoDup_destination_tables. }
  split; [|split; [|split]].
  - exists (cols h). split.
    + apply replace_tables_written; [done|]. by left.
    + rewrite get_historical_data_result, Hdaily in Hh.
      apply shape_historical_Ok in Hh as (_ & _ & ->). cbn [cols].
      rewrite fmap_cons. cbn [snd length]. rewrite snd_cols_rename.
      split; [done|]. unfold rename, columns. cbn [cols].
      by rewrite !length_fmap.
  - apply replace_tables_written; [done|]. simpl. do 2 right. by left.
  - apply replace_tables_written; [done|]. simpl. do 3 right. by left.
  - apply replace_tables_written; [done|]. simpl. do 4 right. by left.
Qed.

Lemma save_to_database_stored_witness :
  let run :=
    save_to_database Samples.provider Samples.sound_backend
                     (__init__ Samples.keys_a "MSFT") Samples.conn
                     Samples.used_world in
  ∃ t, db run.1 !! (Samples.conn, "historical_data") = Some t ∧
       t.*2 = index Samples.msft_daily :: (cols Samples.msft_daily).*2.
Proof.
  intros run. subst run.
  destruct (save_to_database_stored Samples.provider Samples.sound_backend
              (__init__ Samples.keys_a "MSFT") Samples.conn Samples.used_world
              Samples.msft_daily (VStr "MSFT")
              (Samples.four_quarters 4) (VStr "MSFT")
              (Samples.four_quarters 10) (VStr "MSFT")
              (Samples.four_quarters 20) (VStr "MSFT"))
    as [(t & Ht & Hcells & _) _].
  - reflexivity.
  - reflexivity.
  - reflexivity.
  - reflexivity.
  - vm_compute. reflexivity.
  - exists t. split; [exact Ht|exact Hcells].
Defined.

(** X14: a run that returns leaves no trace of what earlier runs did to the
    stored tables.  Whatever an earlier run to the same database stored or
    damaged, with whatever provider answers, object or server behaviour, and
    whether it returned or failed, after a later run that returns the stored
    tables are those of that later run alone: old rows are not kept,
    nothing is merged. *)
Theorem save_to_database_refresh av1 av2 sql1 sql2 self1 self2 conn_str w :
  let run1 := save_to_database av1 sql1 self1 conn_str w in
  let run2 := save_to_database av2 sql2 self2 conn_str run1.1 in
  run2.2 = Ok tt →
  db run2.1 = db (save_to_database av2 sql2 self2 conn_str w).1.
Proof.
  cbv zeta. intros Hok.
  destruct (save_to_database_returns av2 sql2 self2 conn_str _ Hok)
    as (h & f & _ & _ & Hrun).
  rewrite !Hrun. cbn [fst db].
  assert (NoDup (save_jobs h f).*1) as Hnd.
  { rewrite save_jobs_names. apply NoDup_destination_tables. }
  apply map_eq. intros [u name].
  destruct (decide (u = conn_str ∧ name ∈ destination_tables))
    as [[-> Hin]|Hout].
  - rewrite <- (save_jobs_names h f) in Hin.
    apply list_elem_of_fmap in Hin as ([n df] & -> & Hin). simpl.
    by rewrite !(replace_tables_written conn_str _ _ n df).
  - assert (∀ n, n ∈ destination_tables → (u, name) ≠ (conn_str, n))
      as Hkey.
    { intros n Hn Heq. injection Heq as -> ->. by apply Hout. }
    rewrite !replace_tables_other by (by rewrite save_jobs_names).
    by apply save_to_database_elsewhere.
Qed.

Lemma save_to_database_refresh_witness :
  let msft := __init__ Samples.keys_a "MSFT" in
  let failed :=
    save_to_database Samples.provider EdgeCases.strict_backend msft
                     Samples.conn Samples.used_world in
  db (save_to_database Samples.provider Samples.sound_backend msft
                       Samples.conn failed.1).1 =
  db (save_to_database Samples.provider Samples.sound_backend msft
                       Samples.conn Samples.used_world).1.
Proof.
  intros msft failed. subst failed.
  apply (save_to_database_refresh Samples.provider Samples.provider
           EdgeCases.strict_backend Samples.sound_backend msft msft
           Samples.conn Samples.used_world).
  vm_compute. reflexivity.
Defined.
